(** * Real-estate escrow on Algorand: the approval programs and their properties

    The repository ships its escrow logic as TEAL approval programs held in
    string literals:
    - [RealEstateEscrow]: [getEscrowApprovalProgram] of
      [contracts/RealEstateEscrow.ts] (TEAL v8), the contract the web client
      deploys;
    - [DeployTestnet]: [approvalProgram] of [scripts/deploy-testnet.js]
      (TEAL v8, "simplified for POC").

    The TEAL v6 text of the second [contracts/RealEstateEscrow.ts] is not
    embedded: it gives [app_global_put] and [app_global_get] a key operand,
    which the assembler refuses, so it is no program that can run.

    Each program is embedded instruction by instruction: an opcode is a
    function from the rest of the program to a program, a label is a
    definition, [bnz] chooses between its target and the fall-through.
    [AVM] gives the opcodes their meaning on a stack machine with typed
    values and a key/value global store.

    A program decides on one call of an atomic group: it approves, and its
    writes are committed, or it rejects, and they are dropped. Signatures,
    fees, balances and the transfer of the funds themselves belong to the
    ledger and are outside the model, as are the opcode budget and the
    state schema (the programs write seven keys at most). The programs have
    no error kinds: a failed assertion, a type error and a zero return all
    reject the call.

    Around the programs, [Client] holds the groups the TypeScript builds,
    [DeployScript] the status label the deployment script prints, and
    [Marketplace] the status handling of the page. *)

From stdpp Require Import gmap strings list fin_maps.
From Stdlib Require Import ZArith Lia.

Open Scope Z_scope.

(** ** The virtual machine *)

Module AVM.

(** A stack value is a uint64 or a byte string. *)
Inductive Value :=
| UInt (n : Z)
| Bytes (b : string).

(** One transaction of a group, with the fields the programs read. *)
Record Txn := {
  tx_type : Z;
  tx_sender : string;
  tx_receiver : string;
  tx_amount : Z;
  tx_app_id : Z;
  tx_on_completion : Z;
  tx_app_args : list string;
  tx_first_valid_time : Z
}.

(** What a program can see besides the store: the atomic group, the
    position of the running call in it, and the ledger globals. *)
Record Env := {
  group : list Txn;
  group_index : nat;
  latest_timestamp : Z;
  current_application_address : string;
  creator_address : string
}.

Inductive TxnField :=
| Sender | Receiver | Amount | TypeEnum | ApplicationID | OnCompletion
| NumAppArgs | FirstValidTime
| ApplicationArgs (i : nat).

Inductive GlobalField :=
| GroupSize | LatestTimestamp | CurrentApplicationAddress | CreatorAddress.

(** Named integer constants of the assembler. *)
Definition NoOp : Z := 0.
Definition DeleteApplication : Z := 5.
Definition pay : Z := 1.
Definition appl : Z := 6.

Definition uint64_max : Z := 2 ^ 64 - 1.

(** Protocol limits on a global key and on a key with its byte value. *)
Definition MaxAppKeyLen : Z := 64.
Definition MaxAppBytesValueLen : Z := 128.
Definition MaxAppSumKeyValueLens : Z := 128.

Record Machine := {
  stack : list Value;
  store : gmap string Value
}.

Inductive Failure :=
| StackUnderflow
| TypeMismatch
| AssertFailed
| Overflow
| BadIndex
| TooLong
| ReturnedZero
| ErrOpcode.

(** The result of running a program: approval with the store it leaves, or
    rejection with the reason and the working store at the point of
    failure. *)
Inductive Outcome :=
| Approve (g : gmap string Value)
| Reject (why : Failure) (g : gmap string Value).

Definition Prog : Type := Env -> Machine -> Outcome.

Definition push (v : Value) (m : Machine) : Machine :=
  {| stack := v :: stack m; store := store m |}.

(** An opcode that only transforms the machine, or fails. *)
Definition step (f : Env -> Machine -> Failure + Machine) (k : Prog) : Prog :=
  fun e m =>
    match f e m with
    | inl why => Reject why (store m)
    | inr m' => k e m'
    end.

Definition int (n : Z) : Prog -> Prog :=
  step (fun _ m => inr (push (UInt n) m)).

Definition byte (b : string) : Prog -> Prog :=
  step (fun _ m => inr (push (Bytes b) m)).

Definition field_of (f : TxnField) (t : Txn) : Failure + Value :=
  match f with
  | Sender => inr (Bytes (tx_sender t))
  | Receiver => inr (Bytes (tx_receiver t))
  | Amount => inr (UInt (tx_amount t))
  | TypeEnum => inr (UInt (tx_type t))
  | ApplicationID => inr (UInt (tx_app_id t))
  | OnCompletion => inr (UInt (tx_on_completion t))
  | NumAppArgs => inr (UInt (Z.of_nat (length (tx_app_args t))))
  | FirstValidTime => inr (UInt (tx_first_valid_time t))
  | ApplicationArgs i =>
      match tx_app_args t !! i with
      | Some a => inr (Bytes a)
      | None => inl BadIndex
      end
  end.

Definition gtxn (n : nat) (f : TxnField) : Prog -> Prog :=
  step (fun e m =>
    match group e !! n with
    | Some t =>
        match field_of f t with
        | inr v => inr (push v m)
        | inl why => inl why
        end
    | None => inl BadIndex
    end).

Definition txn (f : TxnField) : Prog -> Prog :=
  fun k e m => gtxn (group_index e) f k e m.

Definition txna : TxnField -> Prog -> Prog := txn.

Definition global (f : GlobalField) : Prog -> Prog :=
  step (fun e m =>
    inr (push
      match f with
      | GroupSize => UInt (Z.of_nat (length (group e)))
      | LatestTimestamp => UInt (latest_timestamp e)
      | CurrentApplicationAddress => Bytes (current_application_address e)
      | CreatorAddress => Bytes (creator_address e)
      end m)).

(** A key that was never written reads as the integer 0. *)
Definition glob (g : gmap string Value) (k : string) : Value :=
  match g !! k with
  | Some v => v
  | None => UInt 0
  end.

Definition app_global_get : Prog -> Prog :=
  step (fun _ m =>
    match stack m with
    | Bytes k :: s => inr {| stack := glob (store m) k :: s; store := store m |}
    | UInt _ :: _ => inl TypeMismatch
    | [] => inl StackUnderflow
    end).

Definition strlen (b : string) : Z := Z.of_nat (String.length b).

Definition fits (k : string) (v : Value) : bool :=
  (strlen k <=? MaxAppKeyLen) &&
  match v with
  | UInt _ => true
  | Bytes b =>
      (strlen b <=? MaxAppBytesValueLen) &&
      (strlen k + strlen b <=? MaxAppSumKeyValueLens)
  end.

Definition app_global_put : Prog -> Prog :=
  step (fun _ m =>
    match stack m with
    | v :: Bytes k :: s =>
        if fits k v
        then inr {| stack := s; store := <[k := v]> (store m) |}
        else inl TooLong
    | _ :: UInt _ :: _ => inl TypeMismatch
    | _ => inl StackUnderflow
    end).

Definition bytes_eqb (a b : string) : bool := String.eqb a b.

Definition b2z (b : bool) : Z := if b then 1 else 0.

(** [==] compares two values of the same type and fails on mixed types. *)
Definition op_eq : Prog -> Prog :=
  step (fun _ m =>
    match stack m with
    | UInt b :: UInt a :: s =>
        inr {| stack := UInt (b2z (a =? b)) :: s; store := store m |}
    | Bytes b :: Bytes a :: s =>
        inr {| stack := UInt (b2z (bytes_eqb a b)) :: s; store := store m |}
    | _ :: _ :: _ => inl TypeMismatch
    | _ => inl StackUnderflow
    end).

(** Binary opcodes on two integers: [a] is pushed first, [b] is on top. *)
Definition arith (f : Z -> Z -> Failure + Z) : Prog -> Prog :=
  step (fun _ m =>
    match stack m with
    | UInt b :: UInt a :: s =>
        match f a b with
        | inr r => inr {| stack := UInt r :: s; store := store m |}
        | inl why => inl why
        end
    | _ :: _ :: _ => inl TypeMismatch
    | _ => inl StackUnderflow
    end).

Definition op_lt : Prog -> Prog := arith (fun a b => inr (b2z (a <? b))).
Definition op_gt : Prog -> Prog := arith (fun a b => inr (b2z (a >? b))).
Definition op_ge : Prog -> Prog := arith (fun a b => inr (b2z (a >=? b))).

Definition op_or : Prog -> Prog :=
  arith (fun a b => inr (b2z (negb (a =? 0) || negb (b =? 0)))).

Definition op_add : Prog -> Prog :=
  arith (fun a b => if a + b <=? uint64_max then inr (a + b) else inl Overflow).

Definition byte_val (c : Ascii.ascii) : Z := Z.of_N (Ascii.N_of_ascii c).

(** Big-endian value of a byte string. *)
Fixpoint be_value (acc : Z) (b : string) : Z :=
  match b with
  | EmptyString => acc
  | String c r => be_value (acc * 256 + byte_val c) r
  end.

Definition btoi : Prog -> Prog :=
  step (fun _ m =>
    match stack m with
    | Bytes b :: s =>
        if strlen b <=? 8
        then inr {| stack := UInt (be_value 0 b) :: s; store := store m |}
        else inl TooLong
    | UInt _ :: _ => inl TypeMismatch
    | [] => inl StackUnderflow
    end).

Definition assert : Prog -> Prog :=
  step (fun _ m =>
    match stack m with
    | UInt n :: s =>
        if n =? 0 then inl AssertFailed
        else inr {| stack := s; store := store m |}
    | Bytes _ :: _ => inl TypeMismatch
    | [] => inl StackUnderflow
    end).

(** [bnz target] pops an integer and continues at [target] when it is not
    zero, at the next instruction otherwise. *)
Definition bnz (target : Prog) (k : Prog) : Prog :=
  fun e m =>
    match stack m with
    | UInt n :: s =>
        let m' := {| stack := s; store := store m |} in
        if n =? 0 then k e m' else target e m'
    | Bytes _ :: _ => Reject TypeMismatch (store m)
    | [] => Reject StackUnderflow (store m)
    end.

(** [return] ends the program with the integer on top of the stack. *)
Definition return_ : Prog :=
  fun _ m =>
    match stack m with
    | UInt n :: _ =>
        if n =? 0 then Reject ReturnedZero (store m) else Approve (store m)
    | Bytes _ :: _ => Reject TypeMismatch (store m)
    | [] => Reject StackUnderflow (store m)
    end.

Definition err : Prog := fun _ m => Reject ErrOpcode (store m).

(** Running a call starts from an empty stack on the application's
    committed store. *)
Definition run (p : Prog) (e : Env) (g : gmap string Value) : Outcome :=
  p e {| stack := []; store := g |}.

Definition approved (o : Outcome) : bool :=
  match o with
  | Approve _ => true
  | Reject _ _ => false
  end.

(** The ledger keeps the writes of an approved call and discards those of a
    rejected one. *)
Definition commit (o : Outcome) (g : gmap string Value) : gmap string Value :=
  match o with
  | Approve g' => g'
  | Reject _ _ => g
  end.

Definition apply_call (p : Prog) (e : Env) (g : gmap string Value)
  : gmap string Value :=
  commit (run p e g) g.

Fixpoint apply_calls (p : Prog) (es : list Env) (g : gmap string Value)
  : gmap string Value :=
  match es with
  | [] => g
  | e :: es' => apply_calls p es' (apply_call p e g)
  end.

(** The transaction that is running, and who sent it. *)
Definition current (e : Env) : option Txn := group e !! group_index e.

Definition caller_is (e : Env) (a : string) : Prop :=
  exists t, current e = Some t /\ tx_sender t = a.

(** A call to an application that exists already. *)
Definition existing_app_call (e : Env) : Prop :=
  exists t, current e = Some t /\ tx_app_id t <> 0.

(** The transaction that creates the application. *)
Definition creation_call (e : Env) : Prop :=
  exists t, current e = Some t /\ tx_app_id t = 0.

End AVM.

Declare Scope teal_scope.
Delimit Scope teal_scope with teal.
Notation "i ;; k" := (i k) (at level 100, k at level 200, only parsing) : teal_scope.

(** ** contracts/RealEstateEscrow.ts, TEAL v8 *)

Module RealEstateEscrow.
Import AVM.
Local Open Scope teal_scope.

Definition create_app : Prog :=
  byte "status" ;;
  int 0 ;;
  app_global_put ;;
  byte "created" ;;
  global LatestTimestamp ;;
  app_global_put ;;
  int 1 ;;
  return_.

Definition handle_delete : Prog :=
  txn Sender ;;
  global CreatorAddress ;;
  op_eq ;;
  return_.

Definition create_listing : Prog :=
  global GroupSize ;;
  int 1 ;;
  op_eq ;;
  assert ;;
  byte "seller" ;;
  txn Sender ;;
  app_global_put ;;
  byte "price" ;;
  txn (ApplicationArgs 1) ;;
  btoi ;;
  app_global_put ;;
  byte "prop_hash" ;;
  txn (ApplicationArgs 2) ;;
  app_global_put ;;
  byte "deadline" ;;
  global LatestTimestamp ;;
  int 2592000 ;;
  op_add ;;
  app_global_put ;;
  int 1 ;;
  return_.

Definition make_offer : Prog :=
  byte "status" ;;
  app_global_get ;;
  int 0 ;;
  op_eq ;;
  assert ;;
  global LatestTimestamp ;;
  byte "deadline" ;;
  app_global_get ;;
  op_lt ;;
  assert ;;
  global GroupSize ;;
  int 2 ;;
  op_eq ;;
  assert ;;
  gtxn 0 TypeEnum ;;
  int pay ;;
  op_eq ;;
  assert ;;
  gtxn 0 Receiver ;;
  global CurrentApplicationAddress ;;
  op_eq ;;
  assert ;;
  gtxn 0 Amount ;;
  byte "price" ;;
  app_global_get ;;
  op_eq ;;
  assert ;;
  byte "buyer" ;;
  txn Sender ;;
  app_global_put ;;
  int 1 ;;
  return_.

Definition confirm_transfer : Prog :=
  txn Sender ;;
  byte "seller" ;;
  app_global_get ;;
  op_eq ;;
  assert ;;
  byte "status" ;;
  app_global_get ;;
  int 0 ;;
  op_eq ;;
  assert ;;
  global LatestTimestamp ;;
  byte "deadline" ;;
  app_global_get ;;
  op_lt ;;
  assert ;;
  global GroupSize ;;
  int 2 ;;
  op_eq ;;
  assert ;;
  gtxn 0 TypeEnum ;;
  int pay ;;
  op_eq ;;
  assert ;;
  gtxn 0 Sender ;;
  global CurrentApplicationAddress ;;
  op_eq ;;
  assert ;;
  gtxn 0 Receiver ;;
  byte "seller" ;;
  app_global_get ;;
  op_eq ;;
  assert ;;
  byte "status" ;;
  int 1 ;;
  app_global_put ;;
  int 1 ;;
  return_.

Definition cancel_deal : Prog :=
  global LatestTimestamp ;;
  byte "deadline" ;;
  app_global_get ;;
  op_gt ;;
  txn Sender ;;
  byte "buyer" ;;
  app_global_get ;;
  op_eq ;;
  txn Sender ;;
  byte "seller" ;;
  app_global_get ;;
  op_eq ;;
  op_or ;;
  op_or ;;
  assert ;;
  byte "status" ;;
  app_global_get ;;
  int 0 ;;
  op_eq ;;
  assert ;;
  global GroupSize ;;
  int 2 ;;
  op_eq ;;
  assert ;;
  gtxn 0 TypeEnum ;;
  int pay ;;
  op_eq ;;
  assert ;;
  gtxn 0 Sender ;;
  global CurrentApplicationAddress ;;
  op_eq ;;
  assert ;;
  gtxn 0 Receiver ;;
  byte "buyer" ;;
  app_global_get ;;
  op_eq ;;
  assert ;;
  byte "status" ;;
  int 2 ;;
  app_global_put ;;
  int 1 ;;
  return_.

Definition handle_noop : Prog :=
  txn (ApplicationArgs 0) ;;
  byte "create_listing" ;;
  op_eq ;;
  bnz create_listing ;;
  txn (ApplicationArgs 0) ;;
  byte "make_offer" ;;
  op_eq ;;
  bnz make_offer ;;
  txn (ApplicationArgs 0) ;;
  byte "confirm_transfer" ;;
  op_eq ;;
  bnz confirm_transfer ;;
  txn (ApplicationArgs 0) ;;
  byte "cancel_deal" ;;
  op_eq ;;
  bnz cancel_deal ;;
  int 0 ;;
  return_.

Definition getEscrowApprovalProgram : Prog :=
  txn ApplicationID ;;
  int 0 ;;
  op_eq ;;
  bnz create_app ;;
  txn OnCompletion ;;
  int NoOp ;;
  op_eq ;;
  bnz handle_noop ;;
  txn OnCompletion ;;
  int DeleteApplication ;;
  op_eq ;;
  bnz handle_delete ;;
  int 0 ;;
  return_.

End RealEstateEscrow.

(** ** scripts/deploy-testnet.js, TEAL v8 *)

Module DeployTestnet.
Import AVM.
Local Open Scope teal_scope.

Definition store_initial_params : Prog :=
  byte "seller" ;;
  txn Sender ;;
  app_global_put ;;
  byte "price" ;;
  txn (ApplicationArgs 0) ;;
  btoi ;;
  app_global_put ;;
  byte "prop_hash" ;;
  txn (ApplicationArgs 1) ;;
  app_global_put ;;
  byte "deadline" ;;
  global LatestTimestamp ;;
  int 2592000 ;;
  op_add ;;
  app_global_put ;;
  int 1 ;;
  return_.

Definition create_app : Prog :=
  byte "status" ;;
  int 0 ;;
  app_global_put ;;
  byte "created" ;;
  global LatestTimestamp ;;
  app_global_put ;;
  txn NumAppArgs ;;
  int 3 ;;
  op_ge ;;
  bnz store_initial_params ;;
  int 1 ;;
  return_.

Definition make_offer : Prog :=
  byte "status" ;;
  app_global_get ;;
  int 0 ;;
  op_eq ;;
  assert ;;
  byte "buyer" ;;
  txn Sender ;;
  app_global_put ;;
  byte "status" ;;
  int 1 ;;
  app_global_put ;;
  int 1 ;;
  return_.

Definition confirm_transfer : Prog :=
  txn Sender ;;
  byte "seller" ;;
  app_global_get ;;
  op_eq ;;
  assert ;;
  byte "status" ;;
  app_global_get ;;
  int 1 ;;
  op_eq ;;
  assert ;;
  byte "status" ;;
  int 2 ;;
  app_global_put ;;
  int 1 ;;
  return_.

Definition cancel_deal : Prog :=
  txn Sender ;;
  byte "buyer" ;;
  app_global_get ;;
  op_eq ;;
  txn Sender ;;
  byte "seller" ;;
  app_global_get ;;
  op_eq ;;
  op_or ;;
  global LatestTimestamp ;;
  byte "deadline" ;;
  app_global_get ;;
  op_gt ;;
  op_or ;;
  assert ;;
  byte "status" ;;
  int 0 ;;
  app_global_put ;;
  int 1 ;;
  return_.

Definition handle_noop : Prog :=
  txn (ApplicationArgs 0) ;;
  byte "make_offer" ;;
  op_eq ;;
  bnz make_offer ;;
  txn (ApplicationArgs 0) ;;
  byte "confirm_transfer" ;;
  op_eq ;;
  bnz confirm_transfer ;;
  txn (ApplicationArgs 0) ;;
  byte "cancel_deal" ;;
  op_eq ;;
  bnz cancel_deal ;;
  int 0 ;;
  return_.

Definition approvalProgram : Prog :=
  txn ApplicationID ;;
  int 0 ;;
  op_eq ;;
  bnz create_app ;;
  txn OnCompletion ;;
  int NoOp ;;
  op_eq ;;
  bnz handle_noop ;;
  int 0 ;;
  return_.

End DeployTestnet.

(** ** The client side: how the repository builds the groups it submits *)

Module Client.
Import AVM.

(** [algosdk.encodeUint64]: eight bytes, most significant first. *)
Fixpoint be_bytes (n : nat) (v : Z) : string :=
  match n with
  | O => EmptyString
  | S n' =>
      (be_bytes n' (v / 256)
       +:+ String (Ascii.ascii_of_N (Z.to_N (v mod 256))) EmptyString)%string
  end.

Definition encodeUint64 (v : Z) : string := be_bytes 8 v.

Definition makePaymentTxn (from to : string) (amount : Z) : Txn :=
  {| tx_type := pay; tx_sender := from; tx_receiver := to;
     tx_amount := amount; tx_app_id := 0; tx_on_completion := NoOp;
     tx_app_args := []; tx_first_valid_time := 0 |}.

Definition makeApplicationNoOpTxn (from : string) (appId : Z)
    (appArgs : list string) : Txn :=
  {| tx_type := appl; tx_sender := from; tx_receiver := EmptyString;
     tx_amount := 0; tx_app_id := appId; tx_on_completion := NoOp;
     tx_app_args := appArgs; tx_first_valid_time := 0 |}.

Definition makeApplicationCreateTxn (from : string)
    (appArgs : list string) : Txn :=
  makeApplicationNoOpTxn from 0 appArgs.

(** What [confirmTransfer] and [cancelDeal] read back from the global
    state before they build the payout. *)
Definition read_price (g : gmap string Value) : Z :=
  match g !! "price" with
  | Some (UInt n) => n
  | _ => 0
  end.

Definition read_buyer (g : gmap string Value) : string :=
  match g !! "buyer" with
  | Some (Bytes b) => b
  | _ => EmptyString
  end.

Definition makeOffer (buyerAccount : string) (appId : Z)
    (appAddress : string) (offerAmount : Z) : list Txn :=
  [ makePaymentTxn buyerAccount appAddress offerAmount;
    makeApplicationNoOpTxn buyerAccount appId ["make_offer"] ].

Definition confirmTransfer (sellerAccount : string) (appId : Z)
    (appAddress : string) (g : gmap string Value) : list Txn :=
  [ makePaymentTxn appAddress sellerAccount (read_price g - 1000);
    makeApplicationNoOpTxn sellerAccount appId ["confirm_transfer"] ].

Definition cancelDeal (account : string) (appId : Z)
    (appAddress : string) (g : gmap string Value) : list Txn :=
  [ makePaymentTxn appAddress (read_buyer g) (read_price g - 1000);
    makeApplicationNoOpTxn account appId ["cancel_deal"] ].

End Client.

(** ** Calls, reachable states and the deals used as concrete inputs *)

Module Escrow.
Import AVM.

(** A NoOp call to the existing application whose first argument names
    the operation. *)
Definition calls (e : Env) (method : string) : Prop :=
  exists t,
    current e = Some t /\ tx_app_id t <> 0 /\
    tx_on_completion t = NoOp /\ tx_app_args t !! 0%nat = Some method.

(** The first transaction of the group is a payment of [amount] from
    [from] to [to]. *)
Definition pays (e : Env) (from to : string) (amount : Z) : Prop :=
  exists p,
    group e !! 0%nat = Some p /\ tx_type p = pay /\
    tx_sender p = from /\ tx_receiver p = to /\ tx_amount p = amount.

(** The bundle the program asks of [make_offer]: the call and, before it,
    a payment of the price to the custodian, from any account. *)
Definition offer_bundle (e : Env) (price : Z) : Prop :=
  length (group e) = 2%nat /\
  exists payer, pays e payer (current_application_address e) price.

(** The same group with another amount in its first transaction. *)
Definition set_amount (a : Z) (t : Txn) : Txn :=
  {| tx_type := tx_type t; tx_sender := tx_sender t;
     tx_receiver := tx_receiver t; tx_amount := a;
     tx_app_id := tx_app_id t; tx_on_completion := tx_on_completion t;
     tx_app_args := tx_app_args t;
     tx_first_valid_time := tx_first_valid_time t |}.

Definition repaid (a : Z) (e : Env) : Env :=
  {| group :=
       match group e with
       | p :: rest => set_amount a p :: rest
       | [] => []
       end;
     group_index := group_index e;
     latest_timestamp := latest_timestamp e;
     current_application_address := current_application_address e;
     creator_address := creator_address e |}.

(** Byte length of an account address. *)
Definition address (a : string) : Prop := String.length a = 32%nat.

(** States of the deployed contract: the store left by the creating
    transaction, and every store left by an approved later call. *)
Inductive reachable : gmap string Value -> Prop :=
| reach_create e g :
    creation_call e ->
    run RealEstateEscrow.getEscrowApprovalProgram e ∅ = Approve g ->
    reachable g
| reach_call e g g' :
    reachable g ->
    existing_app_call e ->
    run RealEstateEscrow.getEscrowApprovalProgram e g = Approve g' ->
    reachable g'.

(** Status codes of [contracts/RealEstateEscrow.ts]
    ("0: active, 1: completed, 2: cancelled"). *)
Definition Active : Value := UInt 0.
Definition Completed : Value := UInt 1.
Definition Cancelled : Value := UInt 2.

(** Status codes of [scripts/deploy-testnet.js]
    ("0 = active", "1 = pending", "2 = completed"). *)
Definition dActive : Value := UInt 0.
Definition dPending : Value := UInt 1.
Definition dCompleted : Value := UInt 2.

End Escrow.

Module Scenario.
Import AVM Client.

Definition seller : string := "SELLER-SELLER-SELLER-SELLER-SELL".
Definition buyer : string := "BUYER-BUYER-BUYER-BUYER-BUYER-BU".
Definition rival : string := "RIVAL-RIVAL-RIVAL-RIVAL-RIVAL-RI".
Definition stranger : string := "STRANGER-STRANGER-STRANGER-STRAN".
Definition funder : string := "FUNDER-FUNDER-FUNDER-FUNDER-FUND".
Definition custodian : string := "ESCROW-ESCROW-ESCROW-ESCROW-ESCR".
Definition app_id : Z := 7.
Definition doc_hash : string := "property_doc_hash".

(** The environment of the call at position [i] of [grp], evaluated when
    the latest block time is [now]. *)
Definition at_call (grp : list Txn) (i : nat) (now : Z) : Env :=
  {| group := grp; group_index := i; latest_timestamp := now;
     current_application_address := custodian;
     creator_address := seller |}.

Definition P : Prog := RealEstateEscrow.getEscrowApprovalProgram.

(** [deployContract] creates the application at time 100 ... *)
Definition deploy_call : Env :=
  at_call
    [makeApplicationCreateTxn seller
       ["create_listing"; encodeUint64 1000; doc_hash]] 0 100.

Definition created : gmap string Value := apply_call P deploy_call ∅.

(** ... the seller lists the property for 1000 ... *)
Definition listing_call (who : string) (args : list string) (now : Z) : Env :=
  at_call [makeApplicationNoOpTxn who app_id ("create_listing" :: args)] 0 now.

Definition listed : gmap string Value :=
  apply_call P (listing_call seller [encodeUint64 1000; doc_hash] 100) created.

Definition deadline : Z := 2592100.

(** ... and the buyer deposits the price at time 200. *)
Definition offer_call (who : string) (amount now : Z) : Env :=
  at_call (makeOffer who app_id custodian amount) 1 now.

Definition offered : gmap string Value :=
  apply_call P (offer_call buyer 1000 200) listed.

(** The groups [confirmTransfer] and [cancelDeal] build from the state
    they read. *)
Definition confirm_call (g : gmap string Value) (now : Z) : Env :=
  at_call (confirmTransfer seller app_id custodian g) 1 now.

Definition cancel_call (who : string) (g : gmap string Value) (now : Z)
  : Env :=
  at_call (cancelDeal who app_id custodian g) 1 now.

(** Groups the client does not build: a payout of any amount, a deposit
    paid by another account, a call sent alone. *)
Definition payout_call (amount now : Z) : Env :=
  at_call
    [ makePaymentTxn custodian seller amount;
      makeApplicationNoOpTxn seller app_id ["confirm_transfer"] ] 1 now.

Definition funded_offer_call (payer who : string) (amount now : Z) : Env :=
  at_call
    [ makePaymentTxn payer custodian amount;
      makeApplicationNoOpTxn who app_id ["make_offer"] ] 1 now.

Definition lone_call (who : string) (method : string) (now : Z) : Env :=
  at_call [makeApplicationNoOpTxn who app_id [method]] 0 now.

(** The same deal on the program of the deployment script, whose
    [makeOffer] and later calls are sent alone. *)
Definition DP : Prog := DeployTestnet.approvalProgram.

Definition d_deploy_call : Env :=
  at_call
    [makeApplicationCreateTxn seller
       [encodeUint64 1000; doc_hash; "Real Estate POC"]] 0 100.

Definition d_listed : gmap string Value := apply_call DP d_deploy_call ∅.

Definition d_offered : gmap string Value :=
  apply_call DP (lone_call buyer "make_offer" 200) d_listed.

Definition d_completed : gmap string Value :=
  apply_call DP (lone_call seller "confirm_transfer" 300) d_offered.

End Scenario.

(** ** The ledger's view of the three programs *)

Module Ledger.
Import AVM.

(** The environment of the call at position [i] of the group [grp], for
    an application whose account is [appAddress]. *)
Definition submit (grp : list Txn) (i : nat) (now : Z)
    (appAddress creator : string) : Env :=
  {| group := grp; group_index := i; latest_timestamp := now;
     current_application_address := appAddress;
     creator_address := creator |}.

(** What a key holds, when it holds something. *)
Definition uint_at (g : gmap string Value) (k : string) : Prop :=
  forall b, g !! k <> Some (Bytes b).

Definition bytes_at (g : gmap string Value) (k : string) : Prop :=
  forall n, g !! k <> Some (UInt n).

(** Every key of the deal holds the type the programs compare it with. *)
Definition well_typed (g : gmap string Value) : Prop :=
  uint_at g "status" /\ uint_at g "created" /\ uint_at g "price" /\
  uint_at g "deadline" /\
  bytes_at g "seller" /\ bytes_at g "buyer" /\ bytes_at g "prop_hash".

(** States of the program of [scripts/deploy-testnet.js]. *)
Inductive d_reachable : gmap string Value -> Prop :=
| d_reach_create e g :
    creation_call e ->
    run DeployTestnet.approvalProgram e ∅ = Approve g ->
    d_reachable g
| d_reach_call e g g' :
    d_reachable g ->
    existing_app_call e ->
    run DeployTestnet.approvalProgram e g = Approve g' ->
    d_reachable g'.

End Ledger.

(** ** scripts/deploy-testnet.js: what [getAppState] prints for the status *)

Module DeployScript.
Import AVM.

Definition statuses : list string :=
  ["Active"; "Pending"; "Completed"; "Cancelled"].

(** [statuses[value] || 'Unknown'] for an integer [value]. *)
Definition status_label (value : Z) : string :=
  if value <? 0 then "Unknown"
  else
    match statuses !! Z.to_nat value with
    | Some s => s
    | None => "Unknown"
    end.

End DeployScript.

(** ** The marketplace page: RealEstateApp.tsx and components/PropertyListing *)

Module Marketplace.

Inductive Status := listed | pending | sold.

Record Property := {
  id : Z;
  title : string;
  location : string;
  price : Z;
  sqft : Z;
  bedrooms : Z;
  bathrooms : Z;
  description : string;
  images : list string;
  seller : string;
  documentHash : string;
  contractAddress : option Z;
  status : Status;
  listingDate : string
}.

(** [{ ...p, status: s }] *)
Definition with_status (s : Status) (p : Property) : Property :=
  {| id := id p; title := title p; location := location p;
     price := price p; sqft := sqft p; bedrooms := bedrooms p;
     bathrooms := bathrooms p; description := description p;
     images := images p; seller := seller p;
     documentHash := documentHash p;
     contractAddress := contractAddress p; status := s;
     listingDate := listingDate p |}.

Definition status_eqb (a b : Status) : bool :=
  match a, b with
  | listed, listed | pending, pending | sold, sold => true
  | _, _ => false
  end.

(** The state updates of the handlers of [RealEstateApp], once the mock
    contract call has returned. *)
Definition handleMakeOffer (properties : list Property) (propertyId : Z)
  : list Property :=
  map (fun p => if id p =? propertyId then with_status pending p else p)
    properties.

Definition handleConfirmTransfer (properties : list Property)
    (propertyId : Z) : list Property :=
  map (fun p => if id p =? propertyId then with_status sold p else p)
    properties.

(** [handleCancelDeal]: [None] is the 'Property not found' error; for the
    seller the result is the list after the delayed removal. *)
Definition handleCancelDeal (properties : list Property)
    (activeAddress : string) (propertyId : Z) : option (list Property) :=
  match List.find (fun p => id p =? propertyId) properties with
  | None => None
  | Some property =>
      if String.eqb (seller property) activeAddress
      then Some (List.filter (fun p => negb (id p =? propertyId)) properties)
      else
        Some (map (fun p =>
                     if id p =? propertyId then with_status listed p else p)
                properties)
  end.

(** The action buttons of [PropertyListing]: which are rendered and
    enabled on the card of [property], for the props [walletConnected],
    [userAddress] and [isLoading]. Without a connected wallet the component
    returns its 'Connect Your Wallet' panel and renders no card. *)
Definition confirm_enabled (walletConnected : bool) (property : Property)
    (userAddress : string) (isLoading : bool) : bool :=
  walletConnected &&
  (String.eqb (seller property) userAddress &&
   negb (status_eqb (status property) sold) &&
   negb (negb (status_eqb (status property) pending) || isLoading)).

Definition seller_cancel_enabled (walletConnected : bool)
    (property : Property) (userAddress : string) (isLoading : bool) : bool :=
  walletConnected &&
  (String.eqb (seller property) userAddress &&
   negb (status_eqb (status property) sold) &&
   negb (status_eqb (status property) pending
         || status_eqb (status property) sold || isLoading)).

Definition make_offer_enabled (walletConnected : bool) (property : Property)
    (userAddress : string) (isLoading : bool) : bool :=
  walletConnected &&
  (negb (String.eqb (seller property) userAddress) &&
   status_eqb (status property) listed && negb isLoading).

Definition buyer_cancel_enabled (walletConnected : bool)
    (property : Property) (userAddress : string) (isLoading : bool) : bool :=
  walletConnected &&
  (negb (String.eqb (seller property) userAddress) &&
   status_eqb (status property) pending && negb isLoading).

(** One click on an enabled button of the card of [p], on a page rendered
    with the props [walletConnected] and [user]. [RealEstateApp] passes
    [!!activeAddress] and [activeAddress || ''], so with a wallet connected
    [user] is the address [handleCancelDeal] compares with the seller. The
    offer button does nothing for a property whose id is 0. *)
Inductive click (walletConnected : bool) (user : string)
    (properties : list Property) : list Property -> Prop :=
| click_offer p :
    In p properties ->
    make_offer_enabled walletConnected p user false = true ->
    id p <> 0 ->
    click walletConnected user properties
      (handleMakeOffer properties (id p))
| click_confirm p :
    In p properties ->
    confirm_enabled walletConnected p user false = true ->
    click walletConnected user properties
      (handleConfirmTransfer properties (id p))
| click_cancel p properties' :
    In p properties ->
    seller_cancel_enabled walletConnected p user false = true
    \/ buyer_cancel_enabled walletConnected p user false = true ->
    handleCancelDeal properties user (id p) = Some properties' ->
    click walletConnected user properties properties'.

(** The two properties [RealEstateApp] starts with; the listing dates are
    the times of the first render. *)
Definition mockProperties (today yesterday : string) : list Property :=
  [ {| id := 1; title := "Modern Downtown Condo"; location := "Seattle, WA";
       price := 750000000000; sqft := 1200; bedrooms := 2; bathrooms := 2;
       description :=
         "Beautiful modern condo in the heart of downtown Seattle with stunning city views.";
       images := []; seller := "SELLER123456789ABCDEFGHIJKLMNOP";
       documentHash := "hash_abc123"; contractAddress := Some 12345;
       status := listed; listingDate := today |};
    {| id := 2; title := "Suburban Family Home"; location := "Austin, TX";
       price := 425000000000; sqft := 2400; bedrooms := 4; bathrooms := 3;
       description :=
         "Spacious family home in quiet neighborhood with large backyard and great schools nearby.";
       images := []; seller := "SELLER987654321ZYXWVUTSRQPONMLK";
       documentHash := "hash_def456"; contractAddress := Some 12346;
       status := pending; listingDate := yesterday |} ].

(** [`${address.slice(0, 8)}...${address.slice(-4)}`], on byte strings. *)
Definition slice_from_end (n : nat) (s : string) : string :=
  String.substring (String.length s - n) n s.

Definition formatAddress (address : string) : string :=
  (String.substring 0 8 address +:+ "..." +:+ slice_from_end 4 address)%string.

End Marketplace.

(** ** Symbolic execution of a program *)

Section Execution.
Import AVM.

Lemma b2z_eq0 (b : bool) : (b2z b =? 0) = negb b.
Proof. destruct b; reflexivity. Qed.

Lemma bytes_eqb_eq (a b : string) : bytes_eqb a b = true <-> a = b.
Proof. apply String.eqb_eq. Qed.

Lemma bytes_eqb_neq (a b : string) : bytes_eqb a b = false <-> a <> b.
Proof. apply String.eqb_neq. Qed.

Lemma bytes_eqb_refl (a : string) : bytes_eqb a a = true.
Proof. apply String.eqb_refl. Qed.

Lemma address_fits (k a : string) :
  strlen k <= 64 -> String.length a = 32%nat -> fits k (Bytes a) = true.
Proof.
  intros Hk Ha. unfold fits, strlen in *. rewrite Ha.
  unfold MaxAppKeyLen, MaxAppBytesValueLen, MaxAppSumKeyValueLens.
  rewrite !andb_true_iff, !Z.leb_le. lia.
Qed.

End Execution.

Ltac teal_unfold :=
  cbv beta iota zeta delta
    [AVM.run AVM.step AVM.int AVM.byte AVM.gtxn AVM.txn AVM.txna AVM.global
     AVM.app_global_get AVM.app_global_put AVM.op_eq AVM.arith AVM.op_lt
     AVM.op_gt AVM.op_ge AVM.op_or AVM.op_add AVM.btoi AVM.assert AVM.bnz
     AVM.return_ AVM.err AVM.push AVM.stack AVM.store AVM.field_of];
  repeat match goal with
  | |- context [AVM.fits ?k (AVM.UInt ?n)] =>
      change (AVM.fits k (AVM.UInt n)) with true
  end.

(** Split on the innermost value the execution is waiting for. *)
Ltac teal_case :=
  match goal with
  | |- context [match ?x with _ => _ end] =>
      lazymatch x with
      | context [match _ with _ => _ end] => fail
      | _ => destruct x eqn:?
      end
  end.

Ltac teal_run := teal_unfold; repeat (teal_case; teal_unfold; try discriminate).

(** Turn the boolean tests collected along a path into propositions. *)
Ltac teal_facts :=
  repeat match goal with
  | H : context [AVM.b2z _ =? 0] |- _ => rewrite b2z_eq0 in H
  | H : context [negb (negb _)] |- _ => rewrite negb_involutive in H
  | H : negb _ = true |- _ => apply negb_true_iff in H
  | H : negb _ = false |- _ => apply negb_false_iff in H
  | H : _ || _ = true |- _ => apply orb_true_iff in H; destruct H
  | H : _ || _ = false |- _ => apply orb_false_iff in H; destruct H
  | H : AVM.bytes_eqb _ _ = true |- _ => apply bytes_eqb_eq in H
  | H : AVM.bytes_eqb _ _ = false |- _ => apply bytes_eqb_neq in H
  | H : (_ =? _) = true |- _ => apply Z.eqb_eq in H
  | H : (_ =? _) = false |- _ => apply Z.eqb_neq in H
  | H : (_ <? _) = true |- _ => apply Z.ltb_lt in H
  | H : (_ <? _) = false |- _ => apply Z.ltb_ge in H
  | H : (_ >? _) = true |- _ => rewrite Z.gtb_ltb in H
  | H : (_ >? _) = false |- _ => rewrite Z.gtb_ltb in H
  | H : (_ >=? _) = true |- _ => rewrite Z.geb_leb in H
  | H : (_ >=? _) = false |- _ => rewrite Z.geb_leb in H
  | H : (_ <=? _) = true |- _ => apply Z.leb_le in H
  | H : (_ <=? _) = false |- _ => apply Z.leb_gt in H
  end.

Section Dispatch.
Import AVM Escrow.

Lemma escrow_dispatch (e : Env) (g : gmap string Value) (m : string) :
  calls e m ->
  run RealEstateEscrow.getEscrowApprovalProgram e g =
  run RealEstateEscrow.handle_noop e g.
Proof.
  intros (t & Hc & Hid & Hoc & _). unfold current in Hc.
  unfold RealEstateEscrow.getEscrowApprovalProgram. teal_unfold.
  rewrite Hc. teal_unfold.
  apply Z.eqb_neq in Hid. rewrite Hid. simpl.
  rewrite Hoc. reflexivity.
Qed.

Lemma escrow_dispatch_make_offer (e : Env) (g : gmap string Value) :
  calls e "make_offer" ->
  run RealEstateEscrow.getEscrowApprovalProgram e g =
  run RealEstateEscrow.make_offer e g.
Proof.
  intros H. rewrite (escrow_dispatch e g _ H).
  destruct H as (t & Hc & _ & _ & Ha). unfold current in Hc.
  unfold RealEstateEscrow.handle_noop. teal_unfold.
  rewrite Hc. teal_unfold. rewrite Ha. reflexivity.
Qed.

End Dispatch.

Section MakeOffer.
Import AVM Escrow.

(** Exactly when [make_offer] approves, and what it writes. *)
Lemma make_offer_approve_iff (e : Env) (g g' : gmap string Value) :
  run RealEstateEscrow.make_offer e g = Approve g' <->
  glob g "status" = UInt 0 /\
  (exists d, glob g "deadline" = UInt d /\ latest_timestamp e < d) /\
  length (group e) = 2%nat /\
  (exists p,
     group e !! 0%nat = Some p /\ tx_type p = pay /\
     tx_receiver p = current_application_address e /\
     glob g "price" = UInt (tx_amount p)) /\
  (exists t,
     current e = Some t /\ fits "buyer" (Bytes (tx_sender t)) = true /\
     g' = <["buyer" := Bytes (tx_sender t)]> g).
Proof.
  unfold current, RealEstateEscrow.make_offer. split.
  - teal_run. teal_facts. intros [= <-]. subst.
    repeat split; eauto; try lia.
  - intros (Hs & (d & Hd & Hlt) & Hn & (p & Hp & Hty & Hrc & Ham) & (t & Ht & Hf & ->)).
    teal_run; teal_facts; simplify_eq; try lia; try congruence.
Qed.

(** [make_offer] checks everything before it writes. *)
Lemma make_offer_reject_unchanged (e : Env) (g g' : gmap string Value)
    (why : Failure) :
  run RealEstateEscrow.make_offer e g = Reject why g' -> g' = g.
Proof.
  unfold RealEstateEscrow.make_offer.
  teal_run; intros [= _ <-]; reflexivity.
Qed.

End MakeOffer.

Section ConfirmTransfer.
Import AVM Escrow.

(** Exactly when [confirm_transfer] approves, and what it writes. *)
Lemma confirm_transfer_approve_iff (e : Env) (g g' : gmap string Value) :
  run RealEstateEscrow.confirm_transfer e g = Approve g' <->
  exists t s d p,
    current e = Some t /\ glob g "seller" = Bytes s /\ tx_sender t = s /\
    glob g "status" = UInt 0 /\
    glob g "deadline" = UInt d /\ latest_timestamp e < d /\
    length (group e) = 2%nat /\
    group e !! 0%nat = Some p /\ tx_type p = pay /\
    tx_sender p = current_application_address e /\ tx_receiver p = s /\
    g' = <["status" := UInt 1]> g.
Proof.
  unfold current, RealEstateEscrow.confirm_transfer. split.
  - teal_run. teal_facts. intros [= <-]. simplify_eq.
    do 4 eexists. repeat split; eauto; try lia; congruence.
  - intros (t & s & d & p & Ht & Hs & Hts & Hst & Hd & Hlt & Hn & Hp
            & Hty & Hps & Hpr & ->).
    teal_run; teal_facts; simplify_eq; try lia; try congruence.
Qed.

Lemma confirm_transfer_reject_unchanged (e : Env) (g g' : gmap string Value)
    (why : Failure) :
  run RealEstateEscrow.confirm_transfer e g = Reject why g' -> g' = g.
Proof.
  unfold RealEstateEscrow.confirm_transfer.
  teal_run; intros [= _ <-]; reflexivity.
Qed.

Lemma escrow_dispatch_confirm_transfer (e : Env) (g : gmap string Value) :
  calls e "confirm_transfer" ->
  run RealEstateEscrow.getEscrowApprovalProgram e g =
  run RealEstateEscrow.confirm_transfer e g.
Proof.
  intros H. rewrite (escrow_dispatch e g _ H).
  destruct H as (t & Hc & _ & _ & Ha). unfold current in Hc.
  unfold RealEstateEscrow.handle_noop. teal_unfold.
  rewrite Hc. teal_unfold. rewrite Ha. reflexivity.
Qed.

End ConfirmTransfer.

Section CancelDeal.
Import AVM Escrow.

(** Exactly when [cancel_deal] approves, and what it writes. *)
Lemma cancel_deal_approve_iff (e : Env) (g g' : gmap string Value) :
  run RealEstateEscrow.cancel_deal e g = Approve g' <->
  exists t d b s p,
    current e = Some t /\ glob g "deadline" = UInt d /\
    glob g "buyer" = Bytes b /\ glob g "seller" = Bytes s /\
    (d < latest_timestamp e \/ tx_sender t = b \/ tx_sender t = s) /\
    glob g "status" = UInt 0 /\
    length (group e) = 2%nat /\
    group e !! 0%nat = Some p /\ tx_type p = pay /\
    tx_sender p = current_application_address e /\ tx_receiver p = b /\
    g' = <["status" := UInt 2]> g.
Proof.
  unfold current, RealEstateEscrow.cancel_deal. split.
  - teal_run; teal_facts; intros; simplify_eq;
      do 5 eexists; repeat split; eauto; try lia; try congruence;
      intuition (try lia; try congruence).
  - intros (t & d & b & s & p & Ht & Hd & Hb & Hs & Hauth & Hst & Hn & Hp
            & Hty & Hps & Hpr & ->).
    teal_run; teal_facts; simplify_eq; try lia; try congruence;
      intuition (try lia; try congruence).
Qed.

Lemma cancel_deal_reject_unchanged (e : Env) (g g' : gmap string Value)
    (why : Failure) :
  run RealEstateEscrow.cancel_deal e g = Reject why g' -> g' = g.
Proof.
  unfold RealEstateEscrow.cancel_deal.
  teal_run; intros [= _ <-]; reflexivity.
Qed.

Lemma escrow_dispatch_cancel_deal (e : Env) (g : gmap string Value) :
  calls e "cancel_deal" ->
  run RealEstateEscrow.getEscrowApprovalProgram e g =
  run RealEstateEscrow.cancel_deal e g.
Proof.
  intros H. rewrite (escrow_dispatch e g _ H).
  destruct H as (t & Hc & _ & _ & Ha). unfold current in Hc.
  unfold RealEstateEscrow.handle_noop. teal_unfold.
  rewrite Hc. teal_unfold. rewrite Ha. reflexivity.
Qed.

End CancelDeal.

Section WholeProgram.
Import AVM Escrow.

(** A call to the existing application that is approved while the status
    is not 0 does not write the status. *)
Lemma escrow_status_kept (e : Env) (g g' : gmap string Value) :
  existing_app_call e ->
  glob g "status" <> UInt 0 ->
  run RealEstateEscrow.getEscrowApprovalProgram e g = Approve g' ->
  g' !! "status" = g !! "status".
Proof.
  intros (t & Hc & Hid) Hst. unfold current in Hc.
  unfold RealEstateEscrow.getEscrowApprovalProgram,
    RealEstateEscrow.create_app, RealEstateEscrow.handle_noop,
    RealEstateEscrow.handle_delete, RealEstateEscrow.create_listing,
    RealEstateEscrow.make_offer, RealEstateEscrow.confirm_transfer,
    RealEstateEscrow.cancel_deal.
  teal_unfold. rewrite Hc. teal_unfold.
  apply Z.eqb_neq in Hid. rewrite Hid. cbn [b2z Z.eqb].
  teal_run; teal_facts; intros; simplify_eq; try congruence;
    rewrite ?lookup_insert_ne by discriminate; reflexivity.
Qed.

End WholeProgram.

(** ** The claims *)

Section Claims.
Import AVM Escrow Scenario Client.

Lemma created_reachable : reachable created.
Proof.
  apply (reach_create deploy_call).
  - eexists. split; [reflexivity | reflexivity].
  - vm_compute. reflexivity.
Qed.

Lemma listed_reachable : reachable listed.
Proof.
  apply (reach_call (listing_call seller [encodeUint64 1000; doc_hash] 100)
           created).
  - exact created_reachable.
  - eexists. split; [reflexivity | discriminate].
  - vm_compute. reflexivity.
Qed.

Lemma offered_reachable : reachable offered.
Proof.
  apply (reach_call (offer_call buyer 1000 200) listed).
  - exact listed_reachable.
  - eexists. split; [reflexivity | discriminate].
  - vm_compute. reflexivity.
Qed.

(** C10. In the deployed program there is a reachable state with status
    Active and no buyer key in which the seller's [confirm_transfer], sent
    with a payment from the custodian to the seller in a group of two, is
    approved and sets the status to Completed. *)
Theorem escrow_release_without_offer :
  exists (g : gmap string Value) (e : Env),
    reachable g /\
    g !! "status" = Some Active /\ g !! "buyer" = None /\
    calls e "confirm_transfer" /\ caller_is e seller /\
    g !! "seller" = Some (Bytes seller) /\
    length (group e) = 2%nat /\
    (exists a, pays e (current_application_address e) seller a) /\
    exists g',
      run RealEstateEscrow.getEscrowApprovalProgram e g = Approve g' /\
      g' !! "status" = Some Completed /\ g' !! "buyer" = None.
Proof.
  exists listed, (confirm_call listed 300).
  split; [exact listed_reachable |].
  repeat split; try (vm_compute; reflexivity).
  - eexists. repeat split; try reflexivity. discriminate.
  - eexists. split; reflexivity.
  - eexists. eexists. repeat split; reflexivity.
  - eexists. split; [vm_compute; reflexivity |].
    split; vm_compute; reflexivity.
Qed.

(** *** Terminal states *)

(** In [contracts/RealEstateEscrow.ts] the three operations are rejected
    once the status is Completed or Cancelled. *)
Lemma escrow_terminal_ops_rejected (e : Env) (g : gmap string Value)
    (m : string) :
  g !! "status" = Some Completed \/ g !! "status" = Some Cancelled ->
  m = "make_offer" \/ m = "confirm_transfer" \/ m = "cancel_deal" ->
  calls e m ->
  exists why, run RealEstateEscrow.getEscrowApprovalProgram e g = Reject why g.
Proof.
  intros Hst Hm Hc.
  assert (Hg : glob g "status" <> UInt 0).
  { unfold glob. destruct Hst as [-> | ->]; discriminate. }
  destruct (run RealEstateEscrow.getEscrowApprovalProgram e g) as [g' | why g']
    eqn:Hrun.
  - exfalso. apply Hg. destruct Hm as [-> | [-> | ->]].
    + rewrite (escrow_dispatch_make_offer e g Hc) in Hrun.
      apply make_offer_approve_iff in Hrun. tauto.
    + rewrite (escrow_dispatch_confirm_transfer e g Hc) in Hrun.
      apply confirm_transfer_approve_iff in Hrun.
      destruct Hrun as (? & ? & ? & ? & ?). tauto.
    + rewrite (escrow_dispatch_cancel_deal e g Hc) in Hrun.
      apply cancel_deal_approve_iff in Hrun.
      destruct Hrun as (? & ? & ? & ? & ? & ?). tauto.
  - exists why. f_equal. destruct Hm as [-> | [-> | ->]].
    + rewrite (escrow_dispatch_make_offer e g Hc) in Hrun.
      exact (make_offer_reject_unchanged _ _ _ _ Hrun).
    + rewrite (escrow_dispatch_confirm_transfer e g Hc) in Hrun.
      exact (confirm_transfer_reject_unchanged _ _ _ _ Hrun).
    + rewrite (escrow_dispatch_cancel_deal e g Hc) in Hrun.
      exact (cancel_deal_reject_unchanged _ _ _ _ Hrun).
Qed.

(** ... and no sequence of calls to the application changes that status. *)
Lemma escrow_terminal_forever (es : list Env) (g : gmap string Value) :
  g !! "status" = Some Completed \/ g !! "status" = Some Cancelled ->
  Forall existing_app_call es ->
  apply_calls RealEstateEscrow.getEscrowApprovalProgram es g !! "status"
  = g !! "status".
Proof.
  intros Hst Hes. revert g Hst.
  induction Hes as [| e es He _ IH]; intros g Hst; [reflexivity |].
  simpl.
  assert (Hkeep :
    apply_call RealEstateEscrow.getEscrowApprovalProgram e g !! "status"
    = g !! "status").
  { unfold apply_call.
    destruct (run RealEstateEscrow.getEscrowApprovalProgram e g) as [g' | ? ?]
      eqn:Hrun; [| reflexivity].
    simpl. apply (escrow_status_kept e g g' He); [| exact Hrun].
    unfold glob. destruct Hst as [-> | ->]; discriminate. }
  rewrite IH; [exact Hkeep |]. rewrite Hkeep. exact Hst.
Qed.

(** C1. In [scripts/deploy-testnet.js] a Completed deal is not terminal:
    the seller's [cancel_deal] is approved, writes status 0 (Active), and
    the deal then takes a new offer. *)
Theorem deploy_cancel_reopens_completed_deal :
  d_completed !! "status" = Some dCompleted /\
  exists g',
    run DeployTestnet.approvalProgram (lone_call seller "cancel_deal" 400)
      d_completed = Approve g' /\
    g' !! "status" = Some dActive /\
    exists g'',
      run DeployTestnet.approvalProgram (lone_call rival "make_offer" 500) g'
      = Approve g'' /\
      g'' !! "buyer" = Some (Bytes rival) /\
      g'' !! "status" = Some dPending.
Proof.
  split; [vm_compute; reflexivity |].
  eexists. split; [vm_compute; reflexivity |].
  split; [vm_compute; reflexivity |].
  eexists. split; [vm_compute; reflexivity |].
  split; vm_compute; reflexivity.
Qed.

(** *** Offers *)

(** In [scripts/deploy-testnet.js] an approved [make_offer] records the
    caller, sets the status to Pending, and closes the deal to any further
    [make_offer]. *)
Lemma deploy_make_offer_once (e : Env) (g g' : gmap string Value) :
  calls e "make_offer" ->
  run DeployTestnet.approvalProgram e g = Approve g' ->
  (exists b, caller_is e b /\ g' !! "buyer" = Some (Bytes b)) /\
  g' !! "status" = Some dPending /\
  forall e2, calls e2 "make_offer" ->
    exists why, run DeployTestnet.approvalProgram e2 g' = Reject why g'.
Proof.
  intros (t & Hc & Hid & Hoc & Ha) Hrun.
  assert (Hg' : g' = <["status" := UInt 1]> (<["buyer" := Bytes (tx_sender t)]> g)).
  { revert Hrun. unfold current in Hc.
    unfold DeployTestnet.approvalProgram, DeployTestnet.handle_noop,
      DeployTestnet.make_offer.
    teal_unfold. rewrite Hc. teal_unfold.
    apply Z.eqb_neq in Hid. rewrite Hid, Hoc, Ha. cbn [b2z Z.eqb NoOp].
    teal_unfold. change (bytes_eqb "make_offer" "make_offer") with true.
    cbn [b2z Z.eqb]. teal_run. intros [= <-]. reflexivity. }
  subst g'. split; [| split].
  - exists (tx_sender t). split; [exists t; auto |].
    rewrite lookup_insert_ne by discriminate. apply lookup_insert_eq.
  - apply lookup_insert_eq.
  - intros e2 (t2 & Hc2 & Hid2 & Hoc2 & Ha2). unfold current in Hc2.
    unfold DeployTestnet.approvalProgram, DeployTestnet.handle_noop,
      DeployTestnet.make_offer.
    teal_unfold. rewrite Hc2. teal_unfold.
    apply Z.eqb_neq in Hid2. rewrite Hid2, Hoc2, Ha2. cbn [b2z Z.eqb NoOp].
    teal_unfold. change (bytes_eqb "make_offer" "make_offer") with true.
    cbn [b2z Z.eqb]. unfold glob. rewrite lookup_insert_eq.
    cbn [b2z Z.eqb]. eexists. reflexivity.
Qed.

(** In [contracts/RealEstateEscrow.ts] an approved [make_offer] writes the
    buyer and nothing else: the status it required, 0, is the status it
    leaves. *)
Lemma escrow_make_offer_keeps_status (e : Env) (g g' : gmap string Value) :
  calls e "make_offer" ->
  run RealEstateEscrow.getEscrowApprovalProgram e g = Approve g' ->
  glob g' "status" = Active /\
  forall k, k <> "buyer" -> g' !! k = g !! k.
Proof.
  intros Hc Hrun. rewrite (escrow_dispatch_make_offer e g Hc) in Hrun.
  apply make_offer_approve_iff in Hrun.
  destruct Hrun as (Hst & _ & _ & _ & t & _ & _ & ->). split.
  - unfold glob in *. rewrite lookup_insert_ne by discriminate. exact Hst.
  - intros k Hk. apply lookup_insert_ne. congruence.
Qed.

(** C2. In [contracts/RealEstateEscrow.ts] the first offer records the
    buyer but leaves the status at 0, and a second [make_offer] by another
    account with its own payment is approved and replaces the buyer. *)
Theorem escrow_second_offer_replaces_buyer :
  listed !! "status" = Some Active /\
  run RealEstateEscrow.getEscrowApprovalProgram (offer_call buyer 1000 200)
    listed = Approve offered /\
  offered !! "buyer" = Some (Bytes buyer) /\
  offered !! "status" = Some Active /\
  exists g',
    run RealEstateEscrow.getEscrowApprovalProgram (offer_call rival 1000 300)
      offered = Approve g' /\
    g' !! "buyer" = Some (Bytes rival) /\
    g' !! "status" = Some Active.
Proof.
  repeat split; try (vm_compute; reflexivity).
  eexists. split; [vm_compute; reflexivity |].
  split; vm_compute; reflexivity.
Qed.

(** *** Release of the funds *)

(** In [scripts/deploy-testnet.js] [confirm_transfer] is approved only on a
    Pending deal. *)
Lemma deploy_confirm_transfer_needs_pending (e : Env)
    (g g' : gmap string Value) :
  calls e "confirm_transfer" ->
  run DeployTestnet.approvalProgram e g = Approve g' ->
  g !! "status" = Some dPending /\ g' = <["status" := dCompleted]> g.
Proof.
  intros (t & Hc & Hid & Hoc & Ha). unfold current in Hc.
  unfold DeployTestnet.approvalProgram, DeployTestnet.handle_noop,
    DeployTestnet.confirm_transfer.
  teal_unfold. rewrite Hc. teal_unfold.
  apply Z.eqb_neq in Hid. rewrite Hid, Hoc, Ha. cbn [b2z Z.eqb NoOp].
  teal_unfold.
  change (bytes_eqb "confirm_transfer" "make_offer") with false.
  change (bytes_eqb "confirm_transfer" "confirm_transfer") with true.
  cbn [b2z Z.eqb]. unfold glob.
  teal_run; teal_facts; intros; simplify_eq; split; reflexivity.
Qed.

(** In [contracts/RealEstateEscrow.ts] [confirm_transfer] is approved only
    at status 0, whether or not a buyer is recorded. *)
Lemma escrow_confirm_transfer_status (e : Env) (g g' : gmap string Value) :
  calls e "confirm_transfer" ->
  run RealEstateEscrow.getEscrowApprovalProgram e g = Approve g' ->
  glob g "status" = Active /\ g' = <["status" := Completed]> g.
Proof.
  intros Hc Hrun. rewrite (escrow_dispatch_confirm_transfer e g Hc) in Hrun.
  apply confirm_transfer_approve_iff in Hrun.
  destruct Hrun as (t & s & d & p & _ & _ & _ & Hst & _ & _ & _ & _ & _ & _
                    & _ & Hg).
  split; assumption.
Qed.

(** C3. In [contracts/RealEstateEscrow.ts] the seller's [confirm_transfer]
    on the Active deal with no buyer recorded is approved and changes the
    state: the status becomes Completed. *)
Theorem escrow_confirm_transfer_on_active_deal :
  listed !! "status" = Some Active /\
  listed !! "buyer" = None /\
  run RealEstateEscrow.getEscrowApprovalProgram (confirm_call listed 300)
    listed = Approve (<["status" := Completed]> listed) /\
  <["status" := Completed]> listed !! "status" <> listed !! "status".
Proof.
  repeat split; try (vm_compute; reflexivity).
  vm_compute. discriminate.
Qed.

(** The outcome of [confirm_transfer] does not depend on the amount of the
    payment it is grouped with. *)
Lemma confirm_transfer_ignores_amount (e : Env) (g : gmap string Value)
    (a : Z) :
  run RealEstateEscrow.confirm_transfer (repaid a e) g =
  run RealEstateEscrow.confirm_transfer e g.
Proof.
  destruct e as [[| p rest] [| i] now app cr]; reflexivity.
Qed.

(** C4. In [contracts/RealEstateEscrow.ts] the program approves a
    [confirm_transfer] whose payment is not the price minus the reserve of
    1000 that [confirmTransfer] computes: with price 1000 a payout of 5000
    from the custodian to the seller is approved. *)
Theorem escrow_confirm_transfer_wrong_amount :
  offered !! "price" = Some (UInt 1000) /\
  pays (confirm_call offered 300) custodian seller (1000 - 1000) /\
  pays (payout_call 5000 300) custodian seller 5000 /\
  calls (payout_call 5000 300) "confirm_transfer" /\
  run RealEstateEscrow.getEscrowApprovalProgram (payout_call 5000 300)
    offered = Approve (<["status" := Completed]> offered).
Proof.
  split; [vm_compute; reflexivity |].
  split; [eexists; repeat split; vm_compute; reflexivity |].
  split; [eexists; repeat split; reflexivity |].
  split; [eexists; repeat split; try reflexivity; discriminate |].
  vm_compute. reflexivity.
Qed.

(** *** The bundle of an offer *)

(** C5, as stated, fails: a deposit paid by another account than the
    caller is approved, and the caller becomes the buyer. *)
Lemma make_offer_funded_by_another_account :
  funder <> buyer /\
  calls (funded_offer_call funder buyer 1000 200) "make_offer" /\
  caller_is (funded_offer_call funder buyer 1000 200) buyer /\
  pays (funded_offer_call funder buyer 1000 200) funder custodian 1000 /\
  run RealEstateEscrow.getEscrowApprovalProgram
    (funded_offer_call funder buyer 1000 200) listed
  = Approve (<["buyer" := Bytes buyer]> listed).
Proof.
  split; [discriminate |].
  split; [eexists; repeat split; try reflexivity; discriminate |].
  split; [eexists; split; reflexivity |].
  split; [eexists; repeat split; reflexivity |].
  vm_compute. reflexivity.
Qed.

(** C5, amended. On an Active deal before its deadline, [make_offer] is
    approved, and records the caller as buyer, when the group has size 2
    and starts with a payment of exactly the price to the custodian; with
    any other group (a payment of 999 against a price of 1000, say) it is
    rejected before anything is written. Who funds the payment is not
    checked. *)
Theorem make_offer_bundle_guard (e : Env) (g : gmap string Value)
    (t : Txn) (price d : Z) :
  calls e "make_offer" ->
  current e = Some t ->
  address (tx_sender t) ->
  g !! "status" = Some Active ->
  g !! "price" = Some (UInt price) ->
  g !! "deadline" = Some (UInt d) ->
  latest_timestamp e < d ->
  (offer_bundle e price ->
   run RealEstateEscrow.getEscrowApprovalProgram e g
   = Approve (<["buyer" := Bytes (tx_sender t)]> g)) /\
  (~ offer_bundle e price ->
   exists why,
     run RealEstateEscrow.getEscrowApprovalProgram e g = Reject why g).
Proof.
  intros Hc Ht Haddr Hst Hpr Hd Hlt.
  rewrite (escrow_dispatch_make_offer e g Hc).
  assert (Hgs : glob g "status" = UInt 0) by (unfold glob; rewrite Hst; reflexivity).
  assert (Hgp : glob g "price" = UInt price) by (unfold glob; rewrite Hpr; reflexivity).
  assert (Hgd : glob g "deadline" = UInt d) by (unfold glob; rewrite Hd; reflexivity).
  split.
  - intros (Hn & payer & p & Hp & Hty & _ & Hrc & Ham).
    apply make_offer_approve_iff. repeat split; auto.
    + exists d. auto.
    + exists p. repeat split; auto. rewrite Ham. exact Hgp.
    + exists t. repeat split; auto.
      apply address_fits; [vm_compute; discriminate | exact Haddr].
  - intros Hno.
    destruct (run RealEstateEscrow.make_offer e g) as [g' | why g'] eqn:Hrun.
    + exfalso. apply Hno. apply make_offer_approve_iff in Hrun.
      destruct Hrun as (_ & _ & Hn & (p & Hp & Hty & Hrc & Ham) & _).
      split; [exact Hn |]. exists (tx_sender p), p.
      repeat split; auto. congruence.
    + exists why. f_equal. exact (make_offer_reject_unchanged _ _ _ _ Hrun).
Qed.

Lemma make_offer_bundle_guard_witness :
  exists why,
    run RealEstateEscrow.getEscrowApprovalProgram (offer_call buyer 999 200)
      listed = Reject why listed.
Proof.
  refine (proj2 (make_offer_bundle_guard (offer_call buyer 999 200) listed
                   (makeApplicationNoOpTxn buyer app_id ["make_offer"])
                   1000 deadline _ _ _ _ _ _ _) _).
  - eexists. repeat split; try reflexivity. discriminate.
  - reflexivity.
  - reflexivity.
  - vm_compute. reflexivity.
  - vm_compute. reflexivity.
  - vm_compute. reflexivity.
  - reflexivity.
  - intros (_ & payer & p & Hp & _ & _ & _ & Ham).
    injection Hp as <-. discriminate Ham.
Defined.

(** *** Cancellation *)

(** Without a recorded buyer [cancel_deal] cannot get past its
    comparison of the caller with the buyer: the caller is a byte string
    and the missing key reads as the integer 0, so the call stops on the
    types, whoever sends it and whatever it is grouped with. *)
Lemma escrow_cancel_deal_without_buyer (e : Env) (g : gmap string Value) :
  calls e "cancel_deal" ->
  g !! "buyer" = None ->
  run RealEstateEscrow.getEscrowApprovalProgram e g = Reject TypeMismatch g.
Proof.
  intros Hc Hb. rewrite (escrow_dispatch_cancel_deal e g Hc).
  destruct Hc as (t & Hc & _). unfold current in Hc.
  assert (Hgb : glob g "buyer" = UInt 0) by (unfold glob; rewrite Hb; reflexivity).
  unfold RealEstateEscrow.cancel_deal.
  teal_unfold. rewrite Hc.
  destruct (glob g "deadline") as [d | d]; teal_unfold; [| reflexivity].
  rewrite Hgb. reflexivity.
Qed.

(** C6. On the Active deal with no buyer recorded the seller's
    [cancel_deal] is rejected, sent alone (a bundle of size 1) and also
    with a payment from the custodian before it: the program stops on
    comparing the caller with the missing buyer, before it looks at the
    group. *)
Theorem escrow_cancel_deal_before_offer_rejected :
  listed !! "status" = Some Active /\
  listed !! "buyer" = None /\
  calls (lone_call seller "cancel_deal" 300) "cancel_deal" /\
  caller_is (lone_call seller "cancel_deal" 300) seller /\
  length (group (lone_call seller "cancel_deal" 300)) = 1%nat /\
  run RealEstateEscrow.getEscrowApprovalProgram
    (lone_call seller "cancel_deal" 300) listed
  = Reject TypeMismatch listed /\
  run RealEstateEscrow.getEscrowApprovalProgram
    (at_call
       [ makePaymentTxn custodian seller 0;
         makeApplicationNoOpTxn seller app_id ["cancel_deal"] ] 1 300) listed
  = Reject TypeMismatch listed.
Proof.
  split; [vm_compute; reflexivity |].
  split; [vm_compute; reflexivity |].
  split; [eexists; repeat split; try reflexivity; discriminate |].
  split; [eexists; split; reflexivity |].
  split; [reflexivity |].
  split; vm_compute; reflexivity.
Qed.

(** [scripts/deploy-testnet.js] asks for no refund, yet it too rejects the
    seller's lone [cancel_deal] before any offer: the comparison of the
    caller with the missing buyer fails on the types. *)
Lemma deploy_cancel_deal_before_offer :
  d_listed !! "buyer" = None /\
  exists g',
    run DeployTestnet.approvalProgram (lone_call seller "cancel_deal" 300)
      d_listed = Reject TypeMismatch g'.
Proof.
  split; [vm_compute; reflexivity |].
  eexists. vm_compute. reflexivity.
Qed.

(** When [cancel_deal] is approved, a buyer is recorded and the group has
    size 2 and starts with a payment from the custodian to that buyer. *)
Lemma cancel_deal_needs_refund_bundle (e : Env)
    (g g' : gmap string Value) :
  calls e "cancel_deal" ->
  run RealEstateEscrow.getEscrowApprovalProgram e g = Approve g' ->
  length (group e) = 2%nat /\
  exists b a,
    g !! "buyer" = Some (Bytes b) /\
    pays e (current_application_address e) b a.
Proof.
  intros Hc Hrun. rewrite (escrow_dispatch_cancel_deal e g Hc) in Hrun.
  apply cancel_deal_approve_iff in Hrun.
  destruct Hrun as (t & d & b & s & p & _ & _ & Hb & _ & _ & _ & Hn & Hp
                    & Hty & Hps & Hpr & _).
  split; [exact Hn |]. exists b, (tx_amount p). split.
  - unfold glob in Hb. destruct (g !! "buyer") as [v |]; congruence.
  - exists p. repeat split; auto.
Qed.

(** C7, as stated, fails at the boundary: when the latest block time
    equals the deadline, a stranger's [cancel_deal] with the refund to the
    recorded buyer is rejected. *)
Lemma cancel_deal_stranger_at_deadline :
  offered !! "deadline" = Some (UInt deadline) /\
  offered !! "buyer" = Some (Bytes buyer) /\
  latest_timestamp (cancel_call stranger offered deadline) = deadline /\
  calls (cancel_call stranger offered deadline) "cancel_deal" /\
  (exists a, pays (cancel_call stranger offered deadline) custodian buyer a) /\
  approved
    (run RealEstateEscrow.getEscrowApprovalProgram
       (cancel_call stranger offered deadline) offered) = false.
Proof.
  split; [vm_compute; reflexivity |].
  split; [vm_compute; reflexivity |].
  split; [reflexivity |].
  split; [eexists; repeat split; try reflexivity; discriminate |].
  split; [eexists; eexists; repeat split; vm_compute; reflexivity |].
  vm_compute. reflexivity.
Qed.

(** [scripts/deploy-testnet.js] compares the same way: a stranger is
    rejected at the deadline and approved one second later. *)
Lemma deploy_cancel_deal_stranger_at_deadline :
  approved
    (run DeployTestnet.approvalProgram
       (lone_call stranger "cancel_deal" deadline) d_offered) = false /\
  approved
    (run DeployTestnet.approvalProgram
       (lone_call stranger "cancel_deal" (deadline + 1)) d_offered) = true.
Proof. split; vm_compute; reflexivity. Qed.

(** C7, amended. With seller, buyer and deadline recorded, status 0 and
    the refund to the buyer in a group of two, [cancel_deal] is approved
    exactly when the caller is the buyer, or the seller, or the latest
    block time is strictly after the deadline; then it sets the status to
    Cancelled, for any caller. Otherwise it is rejected with the state
    untouched. *)
Theorem cancel_deal_authorization (e : Env) (g : gmap string Value)
    (t : Txn) (s b : string) (d a : Z) :
  calls e "cancel_deal" ->
  current e = Some t ->
  g !! "seller" = Some (Bytes s) ->
  g !! "buyer" = Some (Bytes b) ->
  g !! "deadline" = Some (UInt d) ->
  g !! "status" = Some Active ->
  length (group e) = 2%nat ->
  pays e (current_application_address e) b a ->
  (tx_sender t = b \/ tx_sender t = s \/ d < latest_timestamp e ->
   run RealEstateEscrow.getEscrowApprovalProgram e g
   = Approve (<["status" := Cancelled]> g)) /\
  (~ (tx_sender t = b \/ tx_sender t = s \/ d < latest_timestamp e) ->
   exists why,
     run RealEstateEscrow.getEscrowApprovalProgram e g = Reject why g).
Proof.
  intros Hc Ht Hs Hb Hd Hst Hn (p & Hp & Hty & Hps & Hpr & _).
  rewrite (escrow_dispatch_cancel_deal e g Hc).
  assert (Hgs : glob g "seller" = Bytes s) by (unfold glob; rewrite Hs; reflexivity).
  assert (Hgb : glob g "buyer" = Bytes b) by (unfold glob; rewrite Hb; reflexivity).
  assert (Hgd : glob g "deadline" = UInt d) by (unfold glob; rewrite Hd; reflexivity).
  assert (Hgt : glob g "status" = UInt 0) by (unfold glob; rewrite Hst; reflexivity).
  split.
  - intros Hauth. apply cancel_deal_approve_iff.
    exists t, d, b, s, p. repeat split; auto.
    destruct Hauth as [H | [H | H]]; auto.
  - intros Hno.
    destruct (run RealEstateEscrow.cancel_deal e g) as [g' | why g'] eqn:Hrun.
    + exfalso. apply Hno. apply cancel_deal_approve_iff in Hrun.
      destruct Hrun as (t' & d' & b' & s' & p' & Ht' & Hd' & Hb' & Hs'
                        & Hauth & _).
      unfold current in *. rewrite Hgd in Hd'. rewrite Hgb in Hb'.
      rewrite Hgs in Hs'. simplify_eq.
      destruct Hauth as [H | [H | H]]; auto.
    + exists why. f_equal. exact (cancel_deal_reject_unchanged _ _ _ _ Hrun).
Qed.

Lemma cancel_deal_authorization_witness :
  run RealEstateEscrow.getEscrowApprovalProgram
    (cancel_call stranger offered (deadline + 1)) offered
  = Approve (<["status" := Cancelled]> offered).
Proof.
  refine (proj1 (cancel_deal_authorization
                   (cancel_call stranger offered (deadline + 1)) offered
                   (makeApplicationNoOpTxn stranger app_id ["cancel_deal"])
                   seller buyer deadline 0 _ _ _ _ _ _ _ _) _).
  - eexists. repeat split; try reflexivity. discriminate.
  - reflexivity.
  - vm_compute. reflexivity.
  - vm_compute. reflexivity.
  - vm_compute. reflexivity.
  - vm_compute. reflexivity.
  - reflexivity.
  - eexists. repeat split; vm_compute; reflexivity.
  - right. right. unfold deadline. simpl. lia.
Defined.

(** *** The terms of the deal *)

(** In [contracts/RealEstateEscrow.ts] any account can run
    [create_listing] on the existing application, in any state: the call,
    sent alone with a price of at most 8 bytes and a hash that fits,
    overwrites seller, price, hash and deadline. *)
Lemma escrow_create_listing_open (e : Env) (g : gmap string Value)
    (t : Txn) (a1 a2 : string) :
  calls e "create_listing" ->
  current e = Some t ->
  length (group e) = 1%nat ->
  address (tx_sender t) ->
  tx_app_args t !! 1%nat = Some a1 ->
  strlen a1 <= 8 ->
  tx_app_args t !! 2%nat = Some a2 ->
  strlen a2 <= 119 ->
  latest_timestamp e + 2592000 <= uint64_max ->
  run RealEstateEscrow.getEscrowApprovalProgram e g
  = Approve
      (<["deadline" := UInt (latest_timestamp e + 2592000)]>
         (<["prop_hash" := Bytes a2]>
            (<["price" := UInt (be_value 0 a1)]>
               (<["seller" := Bytes (tx_sender t)]> g)))).
Proof.
  intros Hc Ht Hn Haddr H1 Hl1 H2 Hl2 Hov.
  rewrite (escrow_dispatch e g _ Hc).
  destruct Hc as (t' & Ht' & _ & _ & H0).
  assert (t' = t) by congruence. subst t'. unfold current in Ht.
  assert (Hfs : fits "seller" (Bytes (tx_sender t)) = true).
  { apply address_fits; [vm_compute; discriminate | exact Haddr]. }
  assert (Hfh : fits "prop_hash" (Bytes a2) = true).
  { unfold fits, MaxAppKeyLen, MaxAppBytesValueLen, MaxAppSumKeyValueLens.
    change (strlen "prop_hash") with 9.
    rewrite !andb_true_iff, !Z.leb_le. lia. }
  unfold RealEstateEscrow.handle_noop, RealEstateEscrow.create_listing.
  teal_unfold. rewrite Ht. teal_unfold. rewrite H0, H1, H2, Hn. teal_unfold.
  change (bytes_eqb "create_listing" "create_listing") with true.
  rewrite Hfs, Hfh.
  teal_run; teal_facts; simplify_eq; try lia; try congruence; reflexivity.
Qed.

(** In [scripts/deploy-testnet.js] no call to the existing application
    writes seller, price, hash or deadline. *)
Lemma deploy_terms_fixed (e : Env) (g g' : gmap string Value) (k : string) :
  existing_app_call e ->
  k = "seller" \/ k = "price" \/ k = "prop_hash" \/ k = "deadline" ->
  run DeployTestnet.approvalProgram e g = Approve g' ->
  g' !! k = g !! k.
Proof.
  intros (t & Hc & Hid) Hk. unfold current in Hc.
  unfold DeployTestnet.approvalProgram, DeployTestnet.create_app,
    DeployTestnet.handle_noop, DeployTestnet.make_offer,
    DeployTestnet.confirm_transfer, DeployTestnet.cancel_deal.
  teal_unfold. rewrite Hc. teal_unfold.
  apply Z.eqb_neq in Hid. rewrite Hid. cbn [b2z Z.eqb].
  teal_run; intros [= <-];
    destruct Hk as [-> | [-> | [-> | ->]]];
    rewrite ?lookup_insert_ne by discriminate; reflexivity.
Qed.

(** In [contracts/RealEstateEscrow.ts] the creating transaction stores the
    status and the creation time only; the listing arguments that
    [deployContract] sends with it are not read. *)
Lemma escrow_creation_ignores_listing_arguments :
  map_to_list created = [("status", UInt 0); ("created", UInt 100)].
Proof. vm_compute. reflexivity. Qed.

(** C8. In [contracts/RealEstateEscrow.ts] the terms are not fixed at
    creation: after the buyer's deposit a stranger's [create_listing] is
    approved and replaces the seller, the price and the hash, and moves
    the deadline later. *)
Theorem escrow_create_listing_rewrites_deal :
  offered !! "seller" = Some (Bytes seller) /\
  offered !! "price" = Some (UInt 1000) /\
  offered !! "prop_hash" = Some (Bytes doc_hash) /\
  offered !! "deadline" = Some (UInt deadline) /\
  calls (listing_call stranger [encodeUint64 5; "other_hash"] 5000)
    "create_listing" /\
  exists g',
    run RealEstateEscrow.getEscrowApprovalProgram
      (listing_call stranger [encodeUint64 5; "other_hash"] 5000) offered
    = Approve g' /\
    g' !! "seller" = Some (Bytes stranger) /\
    g' !! "price" = Some (UInt 5) /\
    g' !! "prop_hash" = Some (Bytes "other_hash") /\
    g' !! "deadline" = Some (UInt 2597000) /\
    deadline < 2597000 /\
    g' !! "buyer" = Some (Bytes buyer).
Proof.
  repeat split; try (vm_compute; reflexivity).
  - eexists. repeat split; try reflexivity. discriminate.
  - eexists. split; [vm_compute; reflexivity |].
    repeat split; vm_compute; reflexivity.
Qed.

(** *** Failed calls *)

(** [create_listing] writes the seller before it reads its second
    argument: a call without that argument stops on the missing argument
    with the seller already written in the working store. *)
Lemma create_listing_fails_after_write :
  exists g',
    run RealEstateEscrow.getEscrowApprovalProgram
      (listing_call stranger [] 300) offered = Reject BadIndex g' /\
    g' !! "seller" = Some (Bytes stranger) /\
    offered !! "seller" = Some (Bytes seller) /\
    g' <> offered.
Proof.
  eexists. split; [vm_compute; reflexivity |].
  split; [vm_compute; reflexivity |].
  split; [vm_compute; reflexivity |].
  intros H. apply (f_equal (fun m => m !! "seller")) in H.
  vm_compute in H. discriminate H.
Qed.



(** The buyer key, once written, is never removed: a state without it has
    never had a buyer. *)
Lemma escrow_buyer_kept (e : Env) (g g' : gmap string Value) :
  run RealEstateEscrow.getEscrowApprovalProgram e g = Approve g' ->
  is_Some (g !! "buyer") -> is_Some (g' !! "buyer").
Proof.
  unfold RealEstateEscrow.getEscrowApprovalProgram,
    RealEstateEscrow.create_app, RealEstateEscrow.handle_noop,
    RealEstateEscrow.handle_delete, RealEstateEscrow.create_listing,
    RealEstateEscrow.make_offer, RealEstateEscrow.confirm_transfer,
    RealEstateEscrow.cancel_deal.
  teal_run; intros [= <-] Hb;
    rewrite ?lookup_insert_ne by discriminate;
    try rewrite lookup_insert_eq; eauto.
Qed.

End Claims.

(** ** Lookups in written stores *)

Ltac map_keys :=
  repeat first
    [ rewrite lookup_insert_eq
    | rewrite lookup_insert_ne by discriminate ].

(** Close the goals of an invariant on a store given by its writes. *)
Ltac inv_finish :=
  repeat split; intros; map_keys; try rewrite lookup_empty;
  repeat match goal with
  | H : context [<[_:=_]> _ !! _] |- _ => revert H; map_keys; intros H
  end;
  try discriminate; try congruence; eauto;
  try (left; reflexivity); try (right; left; reflexivity);
  try (right; right; reflexivity).

Section Stores.
Import AVM.

Lemma glob_bytes (g : gmap string Value) (k b : string) :
  glob g k = Bytes b -> g !! k = Some (Bytes b).
Proof. unfold glob. destruct (g !! k); congruence. Qed.

Lemma glob_uint_typed (g : gmap string Value) (k : string) (n : Z) :
  glob g k = UInt n -> g !! k = Some (UInt n) \/ (g !! k = None /\ n = 0).
Proof.
  unfold glob. destruct (g !! k) as [v |]; intros H.
  - left. congruence.
  - right. split; congruence.
Qed.

End Stores.

(** ** Integers on the wire *)

Section Encoding.
Import AVM Client.

Lemma be_value_app (a b : string) (acc : Z) :
  be_value acc (a +:+ b) = be_value (be_value acc a) b.
Proof.
  revert acc. induction a as [| c a IH]; intros acc; simpl; [reflexivity |].
  apply IH.
Qed.

Lemma strlen_app (a b : string) : strlen (a +:+ b) = strlen a + strlen b.
Proof.
  unfold strlen. induction a as [| c a IH].
  - change (String.length (EmptyString +:+ b)) with (String.length b).
    change (String.length EmptyString) with 0%nat. lia.
  - change (String.length (String c a +:+ b))
      with (S (String.length (a +:+ b))).
    change (String.length (String c a)) with (S (String.length a)). lia.
Qed.

Lemma byte_val_of_mod (v : Z) :
  byte_val (Ascii.ascii_of_N (Z.to_N (v mod 256))) = v mod 256.
Proof.
  unfold byte_val.
  assert (H : 0 <= v mod 256 < 256) by (apply Z.mod_pos_bound; lia).
  rewrite Ascii.N_ascii_embedding by lia. lia.
Qed.

Lemma be_bytes_length (n : nat) (v : Z) : strlen (be_bytes n v) = Z.of_nat n.
Proof.
  revert v. induction n as [| n IH]; intros v; [reflexivity |].
  cbn [be_bytes]. rewrite strlen_app, IH. unfold strlen. simpl. lia.
Qed.

Lemma be_value_be_bytes (n : nat) (v acc : Z) :
  0 <= v ->
  be_value acc (be_bytes n v) = acc * 256 ^ Z.of_nat n + v mod 256 ^ Z.of_nat n.
Proof.
  revert v acc. induction n as [| n IH]; intros v acc Hv.
  - simpl. rewrite Z.mod_1_r. lia.
  - cbn [be_bytes]. rewrite be_value_app, IH by (apply Z.div_pos; lia).
    cbn [be_value]. rewrite byte_val_of_mod.
    rewrite Nat2Z.inj_succ, Z.pow_succ_r by lia.
    assert (Hp : 0 < 256 ^ Z.of_nat n) by (apply Z.pow_pos_nonneg; lia).
    rewrite (Z.rem_mul_r v 256 (256 ^ Z.of_nat n)) by lia.
    ring.
Qed.

Lemma encodeUint64_decodes (v : Z) :
  0 <= v <= uint64_max ->
  strlen (encodeUint64 v) = 8 /\ be_value 0 (encodeUint64 v) = v.
Proof.
  intros Hv. unfold encodeUint64. split.
  - apply (be_bytes_length 8).
  - rewrite be_value_be_bytes by lia.
    change (256 ^ Z.of_nat 8) with (2 ^ 64). unfold uint64_max in Hv.
    rewrite Z.mod_small by lia. lia.
Qed.

End Encoding.

(** ** Beyond the claims: contracts/RealEstateEscrow.ts *)

Section EscrowProgram.
Import AVM Escrow Scenario Client Ledger.

(** X1. The creating transaction is approved whoever sends it and whatever
    arguments it carries, and leaves exactly the status 0 and the creation
    time in the store. *)
Theorem escrow_creation_state (e : Env) :
  creation_call e ->
  run RealEstateEscrow.getEscrowApprovalProgram e ∅
  = Approve (<["created" := UInt (latest_timestamp e)]>
               (<["status" := UInt 0]> ∅)).
Proof.
  intros (t & Hc & Hid). unfold current in Hc.
  unfold RealEstateEscrow.getEscrowApprovalProgram,
    RealEstateEscrow.create_app.
  teal_unfold. rewrite Hc. teal_unfold. rewrite Hid. reflexivity.
Qed.

Lemma escrow_creation_state_witness :
  run RealEstateEscrow.getEscrowApprovalProgram deploy_call ∅
  = Approve (<["created" := UInt 100]> (<["status" := UInt 0]> ∅)).
Proof.
  refine (escrow_creation_state deploy_call _).
  eexists. split; reflexivity.
Defined.

(** X2. A DeleteApplication call is approved exactly when its sender is the
    creator of the application, and the program writes nothing on the way. *)
Theorem escrow_delete_only_by_creator (e : Env) (g : gmap string Value)
    (t : Txn) :
  current e = Some t ->
  tx_app_id t <> 0 ->
  tx_on_completion t = DeleteApplication ->
  (tx_sender t = creator_address e ->
   run RealEstateEscrow.getEscrowApprovalProgram e g = Approve g) /\
  (tx_sender t <> creator_address e ->
   run RealEstateEscrow.getEscrowApprovalProgram e g = Reject ReturnedZero g).
Proof.
  intros Hc Hid Hoc. unfold current in Hc.
  unfold RealEstateEscrow.getEscrowApprovalProgram,
    RealEstateEscrow.handle_delete.
  teal_unfold. rewrite Hc. teal_unfold.
  apply Z.eqb_neq in Hid. rewrite Hid, Hoc. cbn [b2z Z.eqb DeleteApplication NoOp Pos.eqb].
  teal_unfold. split; intros Hs.
  - rewrite Hs, bytes_eqb_refl. reflexivity.
  - apply bytes_eqb_neq in Hs. rewrite Hs. reflexivity.
Qed.

Lemma escrow_delete_only_by_creator_witness :
  run RealEstateEscrow.getEscrowApprovalProgram
    (at_call
       [ {| tx_type := appl; tx_sender := stranger;
            tx_receiver := EmptyString; tx_amount := 0; tx_app_id := app_id;
            tx_on_completion := DeleteApplication; tx_app_args := [];
            tx_first_valid_time := 0 |} ] 0 300) offered
  = Reject ReturnedZero offered.
Proof.
  refine (proj2 (escrow_delete_only_by_creator _ offered _ _ _ _) _).
  - reflexivity.
  - discriminate.
  - reflexivity.
  - discriminate.
Defined.

(** X3. A call to the existing application with any completion other than
    NoOp and DeleteApplication (opt-in, close-out, update) is rejected
    without a write: the program cannot be replaced. *)
Theorem escrow_other_completions_rejected (e : Env) (g : gmap string Value)
    (t : Txn) :
  current e = Some t ->
  tx_app_id t <> 0 ->
  tx_on_completion t <> NoOp ->
  tx_on_completion t <> DeleteApplication ->
  run RealEstateEscrow.getEscrowApprovalProgram e g = Reject ReturnedZero g.
Proof.
  intros Hc Hid Hn Hd. unfold current in Hc.
  unfold RealEstateEscrow.getEscrowApprovalProgram.
  teal_unfold. rewrite Hc. teal_unfold.
  apply Z.eqb_neq in Hid, Hn, Hd. rewrite Hid, Hn, Hd. reflexivity.
Qed.

Lemma escrow_other_completions_rejected_witness :
  run RealEstateEscrow.getEscrowApprovalProgram
    (at_call
       [ {| tx_type := appl; tx_sender := seller;
            tx_receiver := EmptyString; tx_amount := 0; tx_app_id := app_id;
            tx_on_completion := 4; tx_app_args := [];
            tx_first_valid_time := 0 |} ] 0 300) offered
  = Reject ReturnedZero offered.
Proof.
  refine (escrow_other_completions_rejected _ offered _ _ _ _ _).
  - reflexivity.
  - discriminate.
  - discriminate.
  - discriminate.
Defined.

(** X4. A NoOp call without arguments fails on reading the method name, and
    one whose first argument is none of the four method names is rejected;
    neither writes. *)
Theorem escrow_unknown_method_rejected (e : Env) (g : gmap string Value)
    (t : Txn) :
  current e = Some t ->
  tx_app_id t <> 0 ->
  tx_on_completion t = NoOp ->
  (tx_app_args t = [] ->
   run RealEstateEscrow.getEscrowApprovalProgram e g = Reject BadIndex g) /\
  (forall m,
     tx_app_args t !! 0%nat = Some m ->
     m <> "create_listing" -> m <> "make_offer" ->
     m <> "confirm_transfer" -> m <> "cancel_deal" ->
     run RealEstateEscrow.getEscrowApprovalProgram e g
     = Reject ReturnedZero g).
Proof.
  intros Hc Hid Hoc. unfold current in Hc.
  unfold RealEstateEscrow.getEscrowApprovalProgram,
    RealEstateEscrow.handle_noop.
  teal_unfold. rewrite Hc. teal_unfold.
  apply Z.eqb_neq in Hid. rewrite Hid, Hoc. cbn [b2z Z.eqb NoOp].
  teal_unfold. split.
  - intros ->. reflexivity.
  - intros m Hm H1 H2 H3 H4. teal_unfold. rewrite Hm.
    apply bytes_eqb_neq in H1, H2, H3, H4. rewrite H1, H2, H3, H4.
    reflexivity.
Qed.

Lemma escrow_unknown_method_rejected_witness :
  run RealEstateEscrow.getEscrowApprovalProgram
    (lone_call buyer "read_state" 300) offered
  = Reject ReturnedZero offered.
Proof.
  refine (proj2 (escrow_unknown_method_rejected
                   (lone_call buyer "read_state" 300) offered _ _ _ _)
            "read_state" _ _ _ _ _).
  - reflexivity.
  - discriminate.
  - reflexivity.
  - reflexivity.
  - discriminate.
  - discriminate.
  - discriminate.
  - discriminate.
Defined.

(** X5. Once the latest block time has reached the recorded deadline,
    [make_offer] and [confirm_transfer] are rejected, whoever calls and
    whatever the group; the state is untouched. *)
Theorem escrow_expired_deal (e : Env) (g : gmap string Value) (d : Z)
    (m : string) :
  g !! "deadline" = Some (UInt d) ->
  d <= latest_timestamp e ->
  m = "make_offer" \/ m = "confirm_transfer" ->
  calls e m ->
  exists why,
    run RealEstateEscrow.getEscrowApprovalProgram e g = Reject why g.
Proof.
  intros Hd Hle Hm Hc.
  assert (Hgd : glob g "deadline" = UInt d) by (unfold glob; rewrite Hd; reflexivity).
  destruct (run RealEstateEscrow.getEscrowApprovalProgram e g) as [g' | why g']
    eqn:Hrun.
  - exfalso. destruct Hm as [-> | ->].
    + rewrite (escrow_dispatch_make_offer e g Hc) in Hrun.
      apply make_offer_approve_iff in Hrun.
      destruct Hrun as (_ & (d' & Hd' & Hlt) & _). rewrite Hgd in Hd'.
      injection Hd' as <-. lia.
    + rewrite (escrow_dispatch_confirm_transfer e g Hc) in Hrun.
      apply confirm_transfer_approve_iff in Hrun.
      destruct Hrun as (t & s & d' & p & _ & _ & _ & _ & Hd' & Hlt & _).
      rewrite Hgd in Hd'. injection Hd' as <-. lia.
  - exists why. f_equal. destruct Hm as [-> | ->].
    + rewrite (escrow_dispatch_make_offer e g Hc) in Hrun.
      exact (make_offer_reject_unchanged _ _ _ _ Hrun).
    + rewrite (escrow_dispatch_confirm_transfer e g Hc) in Hrun.
      exact (confirm_transfer_reject_unchanged _ _ _ _ Hrun).
Qed.

Lemma escrow_expired_deal_witness :
  exists why,
    run RealEstateEscrow.getEscrowApprovalProgram
      (confirm_call offered deadline) offered = Reject why offered.
Proof.
  refine (escrow_expired_deal (confirm_call offered deadline) offered
            deadline "confirm_transfer" _ _ _ _).
  - vm_compute. reflexivity.
  - reflexivity.
  - right. reflexivity.
  - eexists. repeat split; try reflexivity. discriminate.
Defined.

(** X6. [confirm_transfer] sent by anyone but the recorded seller is
    rejected and leaves the state untouched. *)
Theorem escrow_confirm_transfer_only_seller (e : Env)
    (g : gmap string Value) (t : Txn) (s : string) :
  calls e "confirm_transfer" ->
  current e = Some t ->
  g !! "seller" = Some (Bytes s) ->
  tx_sender t <> s ->
  exists why,
    run RealEstateEscrow.getEscrowApprovalProgram e g = Reject why g.
Proof.
  intros Hc Ht Hs Hne.
  rewrite (escrow_dispatch_confirm_transfer e g Hc).
  destruct (run RealEstateEscrow.confirm_transfer e g) as [g' | why g']
    eqn:Hrun.
  - exfalso. apply confirm_transfer_approve_iff in Hrun.
    destruct Hrun as (t' & s' & d & p & Ht' & Hs' & Hts & _).
    unfold glob in Hs'. rewrite Hs in Hs'. congruence.
  - exists why. f_equal. exact (confirm_transfer_reject_unchanged _ _ _ _ Hrun).
Qed.

Lemma escrow_confirm_transfer_only_seller_witness :
  exists why,
    run RealEstateEscrow.getEscrowApprovalProgram
      (at_call (confirmTransfer buyer app_id custodian offered) 1 300) offered
    = Reject why offered.
Proof.
  refine (escrow_confirm_transfer_only_seller
            (at_call (confirmTransfer buyer app_id custodian offered) 1 300)
            offered (makeApplicationNoOpTxn buyer app_id ["confirm_transfer"])
            seller _ _ _ _).
  - eexists. repeat split; try reflexivity. discriminate.
  - reflexivity.
  - vm_compute. reflexivity.
  - discriminate.
Defined.

(** X7. While no seller and no deadline are recorded, as right after the
    creating transaction, none of [make_offer], [confirm_transfer] and
    [cancel_deal] can be approved: the deal exists only once
    [create_listing] has run. *)
Theorem escrow_unlisted_deal_inert (e : Env) (g : gmap string Value)
    (m : string) :
  g !! "seller" = None ->
  g !! "deadline" = None ->
  0 <= latest_timestamp e ->
  m = "make_offer" \/ m = "confirm_transfer" \/ m = "cancel_deal" ->
  calls e m ->
  exists why,
    run RealEstateEscrow.getEscrowApprovalProgram e g = Reject why g.
Proof.
  intros Hs Hd Hnow Hm Hc.
  assert (Hgs : glob g "seller" = UInt 0) by (unfold glob; rewrite Hs; reflexivity).
  assert (Hgd : glob g "deadline" = UInt 0) by (unfold glob; rewrite Hd; reflexivity).
  destruct (run RealEstateEscrow.getEscrowApprovalProgram e g) as [g' | why g']
    eqn:Hrun.
  - exfalso. destruct Hm as [-> | [-> | ->]].
    + rewrite (escrow_dispatch_make_offer e g Hc) in Hrun.
      apply make_offer_approve_iff in Hrun.
      destruct Hrun as (_ & (d' & Hd' & Hlt) & _). rewrite Hgd in Hd'.
      injection Hd' as <-. lia.
    + rewrite (escrow_dispatch_confirm_transfer e g Hc) in Hrun.
      apply confirm_transfer_approve_iff in Hrun.
      destruct Hrun as (t & s & d' & p & _ & Hs' & _). congruence.
    + rewrite (escrow_dispatch_cancel_deal e g Hc) in Hrun.
      apply cancel_deal_approve_iff in Hrun.
      destruct Hrun as (t & d' & b & s & p & _ & _ & _ & Hs' & _). congruence.
  - exists why. f_equal. destruct Hm as [-> | [-> | ->]].
    + rewrite (escrow_dispatch_make_offer e g Hc) in Hrun.
      exact (make_offer_reject_unchanged _ _ _ _ Hrun).
    + rewrite (escrow_dispatch_confirm_transfer e g Hc) in Hrun.
      exact (confirm_transfer_reject_unchanged _ _ _ _ Hrun).
    + rewrite (escrow_dispatch_cancel_deal e g Hc) in Hrun.
      exact (cancel_deal_reject_unchanged _ _ _ _ Hrun).
Qed.

Lemma escrow_unlisted_deal_inert_witness :
  exists why,
    run RealEstateEscrow.getEscrowApprovalProgram (offer_call buyer 1000 200)
      created = Reject why created.
Proof.
  refine (escrow_unlisted_deal_inert (offer_call buyer 1000 200) created
            "make_offer" _ _ _ _ _).
  - vm_compute. reflexivity.
  - vm_compute. reflexivity.
  - discriminate.
  - left. reflexivity.
  - eexists. repeat split; try reflexivity. discriminate.
Defined.

(** What an approved call to the existing application can have done. *)
Lemma escrow_step_cases (e : Env) (g g' : gmap string Value) :
  existing_app_call e ->
  run RealEstateEscrow.getEscrowApprovalProgram e g = Approve g' ->
  g' = g
  \/ (calls e "create_listing" /\
      exists s p h d,
        g' = <["deadline" := UInt d]>
               (<["prop_hash" := Bytes h]>
                  (<["price" := UInt p]> (<["seller" := Bytes s]> g))))
  \/ (glob g "status" = UInt 0 /\ exists b, g' = <["buyer" := Bytes b]> g)
  \/ (glob g "status" = UInt 0 /\ (exists s, glob g "seller" = Bytes s) /\
      g' = <["status" := UInt 1]> g)
  \/ (glob g "status" = UInt 0 /\ (exists b, glob g "buyer" = Bytes b) /\
      g' = <["status" := UInt 2]> g).
Proof.
  intros (t & Hc & Hid). unfold current in Hc.
  unfold RealEstateEscrow.getEscrowApprovalProgram,
    RealEstateEscrow.create_app, RealEstateEscrow.handle_noop,
    RealEstateEscrow.handle_delete, RealEstateEscrow.create_listing,
    RealEstateEscrow.make_offer, RealEstateEscrow.confirm_transfer,
    RealEstateEscrow.cancel_deal.
  teal_unfold. rewrite Hc. teal_unfold.
  apply Z.eqb_neq in Hid. rewrite Hid. cbn [b2z Z.eqb].
  teal_run; teal_facts; intros; simplify_eq.
  all: first
    [ left; reflexivity
    | right; left; split;
      [ exists t; unfold current; repeat split; auto
      | do 4 eexists; reflexivity ]
    | right; right; left; split; [reflexivity | eexists; reflexivity]
    | right; right; right; left; split; [reflexivity |];
      split; [eexists; eassumption || reflexivity | reflexivity]
    | right; right; right; right; split; [reflexivity |];
      split; [eexists; eassumption || reflexivity | reflexivity] ].
Qed.

(** X8. Every reachable state of the contract is well typed (status,
    created, price and deadline hold integers; seller, buyer and hash hold
    bytes), its status is 0, 1 or 2, a Completed deal has a seller and a
    Cancelled deal has a buyer. *)
Theorem escrow_reachable_invariant (g : gmap string Value) :
  reachable g ->
  well_typed g /\
  (g !! "status" = Some Active \/ g !! "status" = Some Completed
   \/ g !! "status" = Some Cancelled) /\
  (g !! "status" = Some Completed ->
   exists s, g !! "seller" = Some (Bytes s)) /\
  (g !! "status" = Some Cancelled ->
   exists b, g !! "buyer" = Some (Bytes b)).
Proof.
  induction 1 as [e g (t & Hc & Hid) Hrun
                 | e g g' Hreach (Hwt & Hst & Hcomp & Hcanc) He Hrun].
  - assert (Hg : g = <["created" := UInt (latest_timestamp e)]>
                       (<["status" := UInt 0]> ∅)).
    { revert Hrun. unfold current in Hc.
      unfold RealEstateEscrow.getEscrowApprovalProgram,
        RealEstateEscrow.create_app.
      teal_unfold. rewrite Hc. teal_unfold. rewrite Hid.
      cbn [b2z Z.eqb]. teal_unfold. intros [= <-]. reflexivity. }
    subst g. unfold well_typed, uint_at, bytes_at, Active, Completed, Cancelled.
    inv_finish.
  - unfold well_typed, uint_at, bytes_at, Active, Completed, Cancelled in *.
    destruct Hwt as (W1 & W2 & W3 & W4 & W5 & W6 & W7).
    destruct (escrow_step_cases e g g' He Hrun)
      as [-> | [(_ & s & p & h & d & ->) | [(H0 & b & ->)
         | [(H0 & (s & Hs) & ->) | (H0 & (b & Hb) & ->)]]]];
      try apply glob_bytes in Hs; try apply glob_bytes in Hb;
      inv_finish.
Qed.

Lemma escrow_reachable_invariant_witness :
  well_typed offered /\
  (offered !! "status" = Some Active \/ offered !! "status" = Some Completed
   \/ offered !! "status" = Some Cancelled) /\
  (offered !! "status" = Some Completed ->
   exists s, offered !! "seller" = Some (Bytes s)) /\
  (offered !! "status" = Some Cancelled ->
   exists b, offered !! "buyer" = Some (Bytes b)).
Proof.
  exact (escrow_reachable_invariant offered offered_reachable).
Defined.

(** X9. Seller, price, hash and deadline are rewritten by [create_listing]
    and by nothing else: every other approved call to the application
    leaves them as they were. *)
Theorem escrow_terms_changed_only_by_create_listing (e : Env)
    (g g' : gmap string Value) (k : string) :
  existing_app_call e ->
  ~ calls e "create_listing" ->
  k = "seller" \/ k = "price" \/ k = "prop_hash" \/ k = "deadline" ->
  run RealEstateEscrow.getEscrowApprovalProgram e g = Approve g' ->
  g' !! k = g !! k.
Proof.
  intros He Hno Hk Hrun.
  destruct (escrow_step_cases e g g' He Hrun)
    as [-> | [(Hc & _) | [(_ & b & ->) | [(_ & _ & ->) | (_ & _ & ->)]]]];
    [reflexivity | contradiction | | |];
    destruct Hk as [-> | [-> | [-> | ->]]]; map_keys; reflexivity.
Qed.

Lemma escrow_terms_changed_only_by_create_listing_witness :
  offered !! "price" = listed !! "price".
Proof.
  refine (escrow_terms_changed_only_by_create_listing
            (offer_call buyer 1000 200) listed offered "price" _ _ _ _).
  - eexists. split; [reflexivity | discriminate].
  - intros (t & Ht & _ & _ & Ha). injection Ht as <-. discriminate Ha.
  - right. left. reflexivity.
  - vm_compute. reflexivity.
Defined.

(** X10. The creation time is written by the creating transaction only: no
    sequence of calls to the application, [create_listing] included,
    changes it. *)
Theorem escrow_created_fixed (es : list Env) (g : gmap string Value) :
  Forall existing_app_call es ->
  apply_calls RealEstateEscrow.getEscrowApprovalProgram es g !! "created"
  = g !! "created".
Proof.
  intros Hes. revert g.
  induction Hes as [| e es He _ IH]; intros g; [reflexivity |].
  simpl. rewrite IH. unfold apply_call.
  destruct (run RealEstateEscrow.getEscrowApprovalProgram e g) as [g' | ? ?]
    eqn:Hrun; [| reflexivity].
  simpl.
  destruct (escrow_step_cases e g g' He Hrun)
    as [-> | [(_ & s & p & h & d & ->) | [(_ & b & ->)
       | [(_ & _ & ->) | (_ & _ & ->)]]]]; map_keys; reflexivity.
Qed.

Lemma escrow_created_fixed_witness :
  apply_calls RealEstateEscrow.getEscrowApprovalProgram
    [ listing_call stranger [encodeUint64 5; "other_hash"] 5000 ] offered
    !! "created"
  = offered !! "created".
Proof.
  refine (escrow_created_fixed _ offered _).
  constructor; [| constructor].
  eexists. split; [reflexivity | discriminate].
Defined.

End EscrowProgram.

(** ** Beyond the claims: scripts/deploy-testnet.js *)

Section DeployProgram.
Import AVM Escrow Scenario Client Ledger.

(** What an approved call to the existing application can have done. *)
Lemma deploy_step_cases (e : Env) (g g' : gmap string Value) :
  existing_app_call e ->
  run DeployTestnet.approvalProgram e g = Approve g' ->
  (calls e "make_offer" /\ glob g "status" = UInt 0 /\
   exists b, g' = <["status" := UInt 1]> (<["buyer" := Bytes b]> g))
  \/ (glob g "status" = UInt 1 /\ (exists s, glob g "seller" = Bytes s) /\
      g' = <["status" := UInt 2]> g)
  \/ ((exists b, glob g "buyer" = Bytes b) /\
      (exists s, glob g "seller" = Bytes s) /\
      g' = <["status" := UInt 0]> g).
Proof.
  intros (t & Hc & Hid). unfold current in Hc.
  unfold DeployTestnet.approvalProgram, DeployTestnet.create_app,
    DeployTestnet.handle_noop, DeployTestnet.make_offer,
    DeployTestnet.confirm_transfer, DeployTestnet.cancel_deal.
  teal_unfold. rewrite Hc. teal_unfold.
  apply Z.eqb_neq in Hid. rewrite Hid. cbn [b2z Z.eqb].
  teal_run; teal_facts; intros; simplify_eq.
  all: first
    [ left; split;
      [ exists t; unfold current; repeat split; auto
      | split; [reflexivity | eexists; reflexivity] ]
    | right; left; split; [reflexivity |];
      split; [eexists; eassumption || reflexivity | reflexivity]
    | right; right; split; [eexists; eassumption || reflexivity |];
      split; [eexists; eassumption || reflexivity | reflexivity] ].
Qed.

(** What the creating transaction can have left. *)
Lemma deploy_creation_cases (e : Env) (g : gmap string Value) :
  creation_call e ->
  run DeployTestnet.approvalProgram e ∅ = Approve g ->
  g = <["created" := UInt (latest_timestamp e)]> (<["status" := UInt 0]> ∅)
  \/ exists s p h d,
       g = <["deadline" := UInt d]>
             (<["prop_hash" := Bytes h]>
                (<["price" := UInt p]>
                   (<["seller" := Bytes s]>
                      (<["created" := UInt (latest_timestamp e)]>
                         (<["status" := UInt 0]> ∅))))).
Proof.
  intros (t & Hc & Hid). unfold current in Hc.
  unfold DeployTestnet.approvalProgram, DeployTestnet.create_app,
    DeployTestnet.store_initial_params.
  teal_unfold. rewrite Hc. teal_unfold. rewrite Hid. cbn [b2z Z.eqb].
  teal_run; intros [= <-];
    first [left; reflexivity | right; do 4 eexists; reflexivity].
Qed.

(** The two ways the creating transaction of the script's program runs. *)
Lemma deploy_creation_run (e : Env) (t : Txn) :
  current e = Some t ->
  tx_app_id t = 0 ->
  ((length (tx_app_args t) < 3)%nat ->
   run DeployTestnet.approvalProgram e ∅
   = Approve (<["created" := UInt (latest_timestamp e)]>
                (<["status" := UInt 0]> ∅))) /\
  (forall a0 a1 a2 rest,
     tx_app_args t = a0 :: a1 :: a2 :: rest ->
     address (tx_sender t) ->
     strlen a0 <= 8 ->
     strlen a1 <= 119 ->
     latest_timestamp e + 2592000 <= uint64_max ->
     run DeployTestnet.approvalProgram e ∅
     = Approve
         (<["deadline" := UInt (latest_timestamp e + 2592000)]>
            (<["prop_hash" := Bytes a1]>
               (<["price" := UInt (be_value 0 a0)]>
                  (<["seller" := Bytes (tx_sender t)]>
                     (<["created" := UInt (latest_timestamp e)]>
                        (<["status" := UInt 0]> ∅))))))).
Proof.
  intros Hc Hid. unfold current in Hc.
  unfold DeployTestnet.approvalProgram, DeployTestnet.create_app,
    DeployTestnet.store_initial_params.
  teal_unfold. rewrite Hc. teal_unfold. rewrite Hid. cbn [b2z Z.eqb].
  split.
  - intros Hlen.
    teal_run; teal_facts; simplify_eq; try lia; try congruence; reflexivity.
  - intros a0 a1 a2 rest Ha Haddr H0 H1 Hov. rewrite Ha.
    assert (Hfs : fits "seller" (Bytes (tx_sender t)) = true).
    { apply address_fits; [vm_compute; discriminate | exact Haddr]. }
    assert (Hfh : fits "prop_hash" (Bytes a1) = true).
    { unfold fits, MaxAppKeyLen, MaxAppBytesValueLen, MaxAppSumKeyValueLens.
      change (strlen "prop_hash") with 9.
      rewrite !andb_true_iff, !Z.leb_le. lia. }
    cbn [lookup list_lookup]. teal_unfold. rewrite Hfs, Hfh.
    teal_run; teal_facts; simplify_eq; try lia; try congruence;
      try reflexivity.
    all: cbn [length] in *; lia.
Qed.

(** X11. The creating transaction of the script's program stores the terms
    only when it carries at least three arguments: with fewer it leaves the
    status and the creation time alone; with three or more it also records
    the sender as seller, the first argument decoded as price, the second as
    hash, and a deadline 2592000 seconds after the block time. *)
Theorem deploy_creation_state (e : Env) (t : Txn) :
  current e = Some t ->
  tx_app_id t = 0 ->
  ((length (tx_app_args t) < 3)%nat ->
   run DeployTestnet.approvalProgram e ∅
   = Approve (<["created" := UInt (latest_timestamp e)]>
                (<["status" := UInt 0]> ∅))) /\
  (forall a0 a1 a2 rest,
     tx_app_args t = a0 :: a1 :: a2 :: rest ->
     address (tx_sender t) ->
     strlen a0 <= 8 ->
     strlen a1 <= 119 ->
     latest_timestamp e + 2592000 <= uint64_max ->
     run DeployTestnet.approvalProgram e ∅
     = Approve
         (<["deadline" := UInt (latest_timestamp e + 2592000)]>
            (<["prop_hash" := Bytes a1]>
               (<["price" := UInt (be_value 0 a0)]>
                  (<["seller" := Bytes (tx_sender t)]>
                     (<["created" := UInt (latest_timestamp e)]>
                        (<["status" := UInt 0]> ∅))))))).
Proof. exact (deploy_creation_run e t). Qed.

Lemma deploy_creation_state_witness :
  run DeployTestnet.approvalProgram d_deploy_call ∅
  = Approve
      (<["deadline" := UInt (100 + 2592000)]>
         (<["prop_hash" := Bytes doc_hash]>
            (<["price" := UInt (be_value 0 (encodeUint64 1000))]>
               (<["seller" := Bytes seller]>
                  (<["created" := UInt 100]> (<["status" := UInt 0]> ∅)))))).
Proof.
  refine (proj2 (deploy_creation_state d_deploy_call
                   (makeApplicationCreateTxn seller
                      [encodeUint64 1000; doc_hash; "Real Estate POC"]) _ _)
            (encodeUint64 1000) doc_hash "Real Estate POC" [] _ _ _ _ _).
  - reflexivity.
  - reflexivity.
  - reflexivity.
  - reflexivity.
  - vm_compute. discriminate.
  - vm_compute. discriminate.
  - vm_compute. discriminate.
Defined.

(** The two ways the script's [make_offer] runs. *)
Lemma deploy_make_offer_run (e : Env) (g : gmap string Value)
    (t : Txn) :
  calls e "make_offer" ->
  current e = Some t ->
  address (tx_sender t) ->
  (glob g "status" = UInt 0 ->
   run DeployTestnet.approvalProgram e g
   = Approve (<["status" := UInt 1]> (<["buyer" := Bytes (tx_sender t)]> g)))
  /\
  (glob g "status" <> UInt 0 ->
   exists why, run DeployTestnet.approvalProgram e g = Reject why g).
Proof.
  intros (t' & Hc & Hid & Hoc & Ha) Ht Haddr.
  assert (t' = t) by congruence. subst t'. unfold current in Hc.
  assert (Hf : fits "buyer" (Bytes (tx_sender t)) = true).
  { apply address_fits; [vm_compute; discriminate | exact Haddr]. }
  unfold DeployTestnet.approvalProgram, DeployTestnet.handle_noop,
    DeployTestnet.make_offer.
  teal_unfold. rewrite Hc. teal_unfold.
  apply Z.eqb_neq in Hid. rewrite Hid, Hoc, Ha. cbn [b2z Z.eqb NoOp].
  teal_unfold. change (bytes_eqb "make_offer" "make_offer") with true.
  cbn [b2z Z.eqb]. rewrite Hf. split.
  - intros ->. reflexivity.
  - intros Hne. destruct (glob g "status") as [n | b]; teal_unfold.
    + destruct (Z.eqb_spec n 0) as [-> | Hn]; [congruence |].
      cbn [b2z Z.eqb]. eexists. reflexivity.
    + eexists. reflexivity.
Qed.

(** X12. The script's [make_offer] is approved for any caller exactly when
    the status reads 0, with no payment, no deadline and no look at who
    calls; it records the caller as buyer and sets the status to 1.
    Otherwise it is rejected before any write. *)
Theorem deploy_make_offer_any_time (e : Env) (g : gmap string Value)
    (t : Txn) :
  calls e "make_offer" ->
  current e = Some t ->
  address (tx_sender t) ->
  (glob g "status" = UInt 0 ->
   run DeployTestnet.approvalProgram e g
   = Approve (<["status" := UInt 1]> (<["buyer" := Bytes (tx_sender t)]> g)))
  /\
  (glob g "status" <> UInt 0 ->
   exists why, run DeployTestnet.approvalProgram e g = Reject why g).
Proof. exact (deploy_make_offer_run e g t). Qed.

Lemma deploy_make_offer_any_time_witness :
  run DeployTestnet.approvalProgram
    (lone_call seller "make_offer" (deadline + 1)) d_listed
  = Approve (<["status" := UInt 1]> (<["buyer" := Bytes seller]> d_listed)).
Proof.
  refine (proj1 (deploy_make_offer_any_time
                   (lone_call seller "make_offer" (deadline + 1)) d_listed
                   (makeApplicationNoOpTxn seller app_id ["make_offer"])
                   _ _ _) _).
  - eexists. repeat split; try reflexivity. discriminate.
  - reflexivity.
  - reflexivity.
  - vm_compute. reflexivity.
Defined.

(** X13. Every reachable state of the script's program is well typed, its
    status is 0, 1 or 2, a Pending or Completed deal has a buyer recorded
    and a Completed deal has a seller. *)
Theorem deploy_reachable_invariant (g : gmap string Value) :
  d_reachable g ->
  well_typed g /\
  (g !! "status" = Some dActive \/ g !! "status" = Some dPending
   \/ g !! "status" = Some dCompleted) /\
  (g !! "status" = Some dPending \/ g !! "status" = Some dCompleted ->
   exists b, g !! "buyer" = Some (Bytes b)) /\
  (g !! "status" = Some dCompleted ->
   exists s, g !! "seller" = Some (Bytes s)).
Proof.
  induction 1 as [e g Hc Hrun
                 | e g g' Hreach (Hwt & Hst & Hbuy & Hsel) He Hrun].
  - unfold well_typed, uint_at, bytes_at, dActive, dPending, dCompleted.
    destruct (deploy_creation_cases e g Hc Hrun)
      as [-> | (s & p & h & d & ->)]; inv_finish.
    all: destruct H; discriminate.
  - unfold well_typed, uint_at, bytes_at, dActive, dPending, dCompleted in *.
    destruct Hwt as (W1 & W2 & W3 & W4 & W5 & W6 & W7).
    destruct (deploy_step_cases e g g' He Hrun)
      as [(_ & H0 & b & ->) | [(H1 & (s & Hs) & ->)
         | ((b & Hb) & (s & Hs) & ->)]];
      try apply glob_bytes in Hs; try apply glob_bytes in Hb.
    + inv_finish.
    + assert (H1' : g !! "status" = Some (UInt 1)).
      { destruct (glob_uint_typed _ _ _ H1) as [? | [_ ?]]; [assumption | lia]. }
      inv_finish.
    + inv_finish.
Qed.

Lemma deploy_reachable_invariant_witness :
  well_typed d_listed /\
  (d_listed !! "status" = Some dActive \/ d_listed !! "status" = Some dPending
   \/ d_listed !! "status" = Some dCompleted) /\
  (d_listed !! "status" = Some dPending
   \/ d_listed !! "status" = Some dCompleted ->
   exists b, d_listed !! "buyer" = Some (Bytes b)) /\
  (d_listed !! "status" = Some dCompleted ->
   exists s, d_listed !! "seller" = Some (Bytes s)).
Proof.
  refine (deploy_reachable_invariant d_listed _).
  apply (d_reach_create d_deploy_call).
  - eexists. split; reflexivity.
  - vm_compute. reflexivity.
Defined.

(** X14. For every reachable state of the script's program, the label
    [getAppState] prints beside the status is Active, Pending or
    Completed: it never prints Cancelled or Unknown. *)
Theorem deploy_status_label (g : gmap string Value) :
  d_reachable g ->
  exists n,
    g !! "status" = Some (UInt n) /\
    (DeployScript.status_label n = "Active"
     \/ DeployScript.status_label n = "Pending"
     \/ DeployScript.status_label n = "Completed").
Proof.
  intros Hr.
  assert (Hst :
    g !! "status" = Some dActive \/ g !! "status" = Some dPending
    \/ g !! "status" = Some dCompleted).
  { clear - Hr. induction Hr as [e g Hc Hrun | e g g' Hreach IH He Hrun].
    - unfold dActive, dPending, dCompleted.
      destruct (deploy_creation_cases e g Hc Hrun)
        as [-> | (s & p & h & d & ->)]; map_keys; auto.
    - unfold dActive, dPending, dCompleted in *.
      destruct (deploy_step_cases e g g' He Hrun)
        as [(_ & _ & b & ->) | [(_ & _ & ->) | (_ & _ & ->)]];
        map_keys; auto. }
  unfold dActive, dPending, dCompleted in Hst.
  destruct Hst as [H | [H | H]]; eexists; (split; [exact H |]).
  - left. reflexivity.
  - right. left. reflexivity.
  - right. right. reflexivity.
Qed.

Lemma deploy_status_label_witness :
  exists n,
    d_completed !! "status" = Some (UInt n) /\
    (DeployScript.status_label n = "Active"
     \/ DeployScript.status_label n = "Pending"
     \/ DeployScript.status_label n = "Completed").
Proof.
  refine (deploy_status_label d_completed _).
  apply (d_reach_call (lone_call seller "confirm_transfer" 300) d_offered).
  - apply (d_reach_call (lone_call buyer "make_offer" 200) d_listed).
    + apply (d_reach_create d_deploy_call).
      * eexists. split; reflexivity.
      * vm_compute. reflexivity.
    + eexists. split; [reflexivity | discriminate].
    + vm_compute. reflexivity.
  - eexists. split; [reflexivity | discriminate].
  - vm_compute. reflexivity.
Defined.

(** X15. The script's [cancel_deal] looks at no status and asks for no
    refund. With seller, buyer and deadline recorded it is approved exactly
    when the caller is the buyer or the seller, or the block time is
    strictly after the deadline, and it then writes status 0 and keeps the
    buyer; with no buyer recorded it is always rejected. *)
Theorem deploy_cancel_deal_authorization (e : Env) (g : gmap string Value)
    (t : Txn) :
  calls e "cancel_deal" ->
  current e = Some t ->
  (g !! "buyer" = None ->
   exists why, run DeployTestnet.approvalProgram e g = Reject why g) /\
  (forall s b d,
     g !! "seller" = Some (Bytes s) ->
     g !! "buyer" = Some (Bytes b) ->
     g !! "deadline" = Some (UInt d) ->
     (tx_sender t = b \/ tx_sender t = s \/ d < latest_timestamp e ->
      run DeployTestnet.approvalProgram e g
      = Approve (<["status" := UInt 0]> g)) /\
     (~ (tx_sender t = b \/ tx_sender t = s \/ d < latest_timestamp e) ->
      run DeployTestnet.approvalProgram e g = Reject AssertFailed g)).
Proof.
  intros (t' & Hc & Hid & Hoc & Ha) Ht.
  assert (t' = t) by congruence. subst t'. unfold current in Hc.
  unfold DeployTestnet.approvalProgram, DeployTestnet.handle_noop,
    DeployTestnet.cancel_deal.
  teal_unfold. rewrite Hc. teal_unfold.
  apply Z.eqb_neq in Hid. rewrite Hid, Hoc, Ha. cbn [b2z Z.eqb NoOp].
  teal_unfold.
  change (bytes_eqb "cancel_deal" "make_offer") with false.
  change (bytes_eqb "cancel_deal" "confirm_transfer") with false.
  change (bytes_eqb "cancel_deal" "cancel_deal") with true.
  cbn [b2z Z.eqb]. split.
  - intros Hb.
    assert (Hgb : glob g "buyer" = UInt 0) by (unfold glob; rewrite Hb; reflexivity).
    teal_run; try congruence; eexists; reflexivity.
  - intros s b d Hs Hb Hd.
    assert (Hgs : glob g "seller" = Bytes s) by (unfold glob; rewrite Hs; reflexivity).
    assert (Hgb : glob g "buyer" = Bytes b) by (unfold glob; rewrite Hb; reflexivity).
    assert (Hgd : glob g "deadline" = UInt d) by (unfold glob; rewrite Hd; reflexivity).
    split; intros Hauth; teal_run; teal_facts;
      repeat match goal with
      | H : glob g ?k = _, H' : glob g ?k = _ |- _ => rewrite H in H'
      end;
      simplify_eq; try reflexivity.
    all: first
      [ destruct Hauth as [H' | [H' | H']]; first [congruence | lia]
      | exfalso; apply Hauth; auto; right; right; lia ].
Qed.

Lemma deploy_cancel_deal_authorization_witness :
  run DeployTestnet.approvalProgram (lone_call buyer "cancel_deal" 400)
    d_completed
  = Approve (<["status" := UInt 0]> d_completed).
Proof.
  refine (proj1 (proj2 (deploy_cancel_deal_authorization
                          (lone_call buyer "cancel_deal" 400) d_completed
                          (makeApplicationNoOpTxn buyer app_id ["cancel_deal"])
                          _ _)
                   seller buyer deadline _ _ _) _).
  - eexists. repeat split; try reflexivity. discriminate.
  - reflexivity.
  - vm_compute. reflexivity.
  - vm_compute. reflexivity.
  - vm_compute. reflexivity.
  - left. reflexivity.
Defined.

(** X16. The script's program accepts NoOp calls only: any other call to
    the existing application, DeleteApplication and UpdateApplication
    included, is rejected, so the application can be neither deleted nor
    replaced. *)
Theorem deploy_only_noop (e : Env) (g : gmap string Value) (t : Txn) :
  current e = Some t ->
  tx_app_id t <> 0 ->
  tx_on_completion t <> NoOp ->
  run DeployTestnet.approvalProgram e g = Reject ReturnedZero g.
Proof.
  intros Hc Hid Hn. unfold current in Hc.
  unfold DeployTestnet.approvalProgram.
  teal_unfold. rewrite Hc. teal_unfold.
  apply Z.eqb_neq in Hid, Hn. rewrite Hid, Hn. reflexivity.
Qed.

Lemma deploy_only_noop_witness :
  run DeployTestnet.approvalProgram
    (at_call
       [ {| tx_type := appl; tx_sender := seller;
            tx_receiver := EmptyString; tx_amount := 0; tx_app_id := app_id;
            tx_on_completion := DeleteApplication; tx_app_args := [];
            tx_first_valid_time := 0 |} ] 0 300) d_completed
  = Reject ReturnedZero d_completed.
Proof.
  refine (deploy_only_noop _ d_completed _ _ _ _).
  - reflexivity.
  - discriminate.
  - discriminate.
Defined.

End DeployProgram.

(** ** Beyond the claims: the client of contracts/RealEstateEscrow.ts *)

Section ClientGroups.
Import AVM Escrow Scenario Client Ledger.

(** X18. A price survives the wire: the eight bytes [encodeUint64] produces
    for a 64-bit price are decoded by [create_listing] to the same price,
    which is what the call stores, with the caller as seller and a deadline
    30 days after the block time. *)
Theorem client_listing_price_round_trip (g : gmap string Value)
    (s h app cr : string) (propertyPrice now appId : Z) :
  address s ->
  0 <= propertyPrice <= uint64_max ->
  strlen h <= 119 ->
  now + 2592000 <= uint64_max ->
  appId <> 0 ->
  run RealEstateEscrow.getEscrowApprovalProgram
    (submit
       [ makeApplicationNoOpTxn s appId
           ["create_listing"; encodeUint64 propertyPrice; h] ] 0 now app cr) g
  = Approve
      (<["deadline" := UInt (now + 2592000)]>
         (<["prop_hash" := Bytes h]>
            (<["price" := UInt propertyPrice]>
               (<["seller" := Bytes s]> g)))).
Proof.
  intros Hs Hp Hh Hov Hid.
  destruct (encodeUint64_decodes propertyPrice Hp) as (Hlen & Hdec).
  rewrite <- Hdec at 2.
  assert (Hc : calls
                 (submit
                    [ makeApplicationNoOpTxn s appId
                        ["create_listing"; encodeUint64 propertyPrice; h] ]
                    0 now app cr) "create_listing").
  { eexists. repeat split; eauto. }
  assert (Hle : strlen (encodeUint64 propertyPrice) <= 8) by lia.
  exact (escrow_create_listing_open _ g
           (makeApplicationNoOpTxn s appId
              ["create_listing"; encodeUint64 propertyPrice; h])
           (encodeUint64 propertyPrice) h Hc eq_refl eq_refl Hs eq_refl Hle
           eq_refl Hh Hov).
Qed.

Lemma client_listing_price_round_trip_witness :
  run RealEstateEscrow.getEscrowApprovalProgram
    (submit
       [ makeApplicationNoOpTxn seller app_id
           ["create_listing"; encodeUint64 750000000000; doc_hash] ] 0 100
       custodian seller) created
  = Approve
      (<["deadline" := UInt (100 + 2592000)]>
         (<["prop_hash" := Bytes doc_hash]>
            (<["price" := UInt 750000000000]>
               (<["seller" := Bytes seller]> created)))).
Proof.
  refine (client_listing_price_round_trip created seller doc_hash custodian
            seller 750000000000 100 app_id _ _ _ _ _).
  - reflexivity.
  - unfold uint64_max. lia.
  - vm_compute. discriminate.
  - vm_compute. discriminate.
  - discriminate.
Defined.

(** X19. On an Active deal before its deadline, the group [makeOffer]
    builds is approved exactly when the offered amount equals the recorded
    price; the buyer account is then recorded. Any other amount is rejected
    and nothing is written. *)
Theorem client_makeOffer_group (g : gmap string Value) (b app cr : string)
    (appId price d now offerAmount : Z) :
  address b ->
  appId <> 0 ->
  g !! "status" = Some Active ->
  g !! "price" = Some (UInt price) ->
  g !! "deadline" = Some (UInt d) ->
  now < d ->
  (offerAmount = price ->
   run RealEstateEscrow.getEscrowApprovalProgram
     (submit (makeOffer b appId app offerAmount) 1 now app cr) g
   = Approve (<["buyer" := Bytes b]> g)) /\
  (offerAmount <> price ->
   exists why,
     run RealEstateEscrow.getEscrowApprovalProgram
       (submit (makeOffer b appId app offerAmount) 1 now app cr) g
     = Reject why g).
Proof.
  intros Hb Hid Hst Hpr Hd Hlt.
  assert (Hc : calls (submit (makeOffer b appId app offerAmount) 1 now app cr)
                 "make_offer").
  { eexists. repeat split; eauto. }
  rewrite (escrow_dispatch_make_offer _ g Hc).
  assert (Hgs : glob g "status" = UInt 0) by (unfold glob; rewrite Hst; reflexivity).
  assert (Hgp : glob g "price" = UInt price) by (unfold glob; rewrite Hpr; reflexivity).
  assert (Hgd : glob g "deadline" = UInt d) by (unfold glob; rewrite Hd; reflexivity).
  split.
  - intros ->. apply make_offer_approve_iff. repeat split; auto.
    + exists d. auto.
    + eexists. repeat split; eauto.
    + eexists. repeat split; eauto.
      apply address_fits; [vm_compute; discriminate | exact Hb].
  - intros Hne.
    destruct (run RealEstateEscrow.make_offer _ g) as [g' | why g'] eqn:Hrun.
    + exfalso. apply make_offer_approve_iff in Hrun.
      destruct Hrun as (_ & _ & _ & (p & Hp & _ & _ & Ham) & _).
      injection Hp as <-. rewrite Hgp in Ham. injection Ham as Ham.
      apply Hne. symmetry. exact Ham.
    + exists why. f_equal. exact (make_offer_reject_unchanged _ _ _ _ Hrun).
Qed.

Lemma client_makeOffer_group_witness :
  run RealEstateEscrow.getEscrowApprovalProgram
    (submit (makeOffer buyer app_id custodian 1000) 1 200 custodian seller)
    listed
  = Approve (<["buyer" := Bytes buyer]> listed).
Proof.
  refine (proj1 (client_makeOffer_group listed buyer custodian seller app_id
                   1000 deadline 200 1000 _ _ _ _ _ _) _).
  - reflexivity.
  - discriminate.
  - vm_compute. reflexivity.
  - vm_compute. reflexivity.
  - vm_compute. reflexivity.
  - reflexivity.
  - reflexivity.
Defined.

(** X20. On a deal at status 0 before its deadline, with a price of at
    least the reserve of 1000, the group [confirmTransfer] builds is
    approved exactly when the account that sends it is the recorded seller,
    and the deal is then Completed; sent by anyone else it is rejected. *)
Theorem client_confirmTransfer_group (g : gmap string Value)
    (acct s app cr : string) (appId price d now : Z) :
  appId <> 0 ->
  g !! "seller" = Some (Bytes s) ->
  g !! "status" = Some Active ->
  g !! "price" = Some (UInt price) ->
  1000 <= price ->
  g !! "deadline" = Some (UInt d) ->
  now < d ->
  (acct = s ->
   run RealEstateEscrow.getEscrowApprovalProgram
     (submit (confirmTransfer acct appId app g) 1 now app cr) g
   = Approve (<["status" := Completed]> g)) /\
  (acct <> s ->
   exists why,
     run RealEstateEscrow.getEscrowApprovalProgram
       (submit (confirmTransfer acct appId app g) 1 now app cr) g
     = Reject why g).
Proof.
  intros Hid Hs Hst Hpr Hres Hd Hlt.
  assert (Hc : calls (submit (confirmTransfer acct appId app g) 1 now app cr)
                 "confirm_transfer").
  { eexists. repeat split; eauto. }
  rewrite (escrow_dispatch_confirm_transfer _ g Hc).
  assert (Hgs : glob g "status" = UInt 0) by (unfold glob; rewrite Hst; reflexivity).
  assert (Hgl : glob g "seller" = Bytes s) by (unfold glob; rewrite Hs; reflexivity).
  assert (Hgd : glob g "deadline" = UInt d) by (unfold glob; rewrite Hd; reflexivity).
  split.
  - intros ->. apply confirm_transfer_approve_iff.
    do 4 eexists. repeat split; eauto.
  - intros Hne.
    destruct (run RealEstateEscrow.confirm_transfer _ g) as [g' | why g']
      eqn:Hrun.
    + exfalso. apply confirm_transfer_approve_iff in Hrun.
      destruct Hrun as (t & s' & d' & p & Ht & Hs' & Hts & _).
      injection Ht as <-. rewrite Hgl in Hs'. injection Hs' as <-.
      apply Hne. exact Hts.
    + exists why. f_equal.
      exact (confirm_transfer_reject_unchanged _ _ _ _ Hrun).
Qed.

Lemma client_confirmTransfer_group_witness :
  run RealEstateEscrow.getEscrowApprovalProgram
    (submit (confirmTransfer seller app_id custodian offered) 1 300 custodian
       seller) offered
  = Approve (<["status" := Completed]> offered).
Proof.
  refine (proj1 (client_confirmTransfer_group offered seller seller custodian
                   seller app_id 1000 deadline 300 _ _ _ _ _ _ _) _).
  - discriminate.
  - vm_compute. reflexivity.
  - vm_compute. reflexivity.
  - vm_compute. reflexivity.
  - discriminate.
  - vm_compute. reflexivity.
  - reflexivity.
  - reflexivity.
Defined.

(** X21. With a buyer recorded, the group [cancelDeal] builds (a refund to
    that buyer) is approved exactly when the account that sends it is the
    buyer or the seller, or the block time is strictly after the deadline;
    the deal is then Cancelled. *)
Theorem client_cancelDeal_group (g : gmap string Value)
    (acct s b app cr : string) (appId price d now : Z) :
  appId <> 0 ->
  g !! "seller" = Some (Bytes s) ->
  g !! "buyer" = Some (Bytes b) ->
  g !! "status" = Some Active ->
  g !! "price" = Some (UInt price) ->
  1000 <= price ->
  g !! "deadline" = Some (UInt d) ->
  (acct = b \/ acct = s \/ d < now ->
   run RealEstateEscrow.getEscrowApprovalProgram
     (submit (cancelDeal acct appId app g) 1 now app cr) g
   = Approve (<["status" := Cancelled]> g)) /\
  (~ (acct = b \/ acct = s \/ d < now) ->
   exists why,
     run RealEstateEscrow.getEscrowApprovalProgram
       (submit (cancelDeal acct appId app g) 1 now app cr) g
     = Reject why g).
Proof.
  intros Hid Hs Hb Hst Hpr Hres Hd.
  assert (Hc : calls (submit (cancelDeal acct appId app g) 1 now app cr)
                 "cancel_deal").
  { eexists. repeat split; eauto. }
  rewrite (escrow_dispatch_cancel_deal _ g Hc).
  assert (Hgs : glob g "status" = UInt 0) by (unfold glob; rewrite Hst; reflexivity).
  assert (Hgl : glob g "seller" = Bytes s) by (unfold glob; rewrite Hs; reflexivity).
  assert (Hgb : glob g "buyer" = Bytes b) by (unfold glob; rewrite Hb; reflexivity).
  assert (Hgd : glob g "deadline" = UInt d) by (unfold glob; rewrite Hd; reflexivity).
  split.
  - intros Hauth. apply cancel_deal_approve_iff.
    exists (makeApplicationNoOpTxn acct appId ["cancel_deal"]), d, b, s,
      (makePaymentTxn app (read_buyer g) (read_price g - 1000)).
    repeat split; auto.
    + cbn. destruct Hauth as [H | [H | H]]; auto.
    + cbn. unfold read_buyer. rewrite Hb. reflexivity.
  - intros Hno.
    destruct (run RealEstateEscrow.cancel_deal _ g) as [g' | why g'] eqn:Hrun.
    + exfalso. apply Hno. apply cancel_deal_approve_iff in Hrun.
      destruct Hrun as (t & d' & b' & s' & p & Ht & Hd' & Hb' & Hs' & Hauth & _).
      injection Ht as <-. rewrite Hgd in Hd'. rewrite Hgb in Hb'.
      rewrite Hgl in Hs'. simplify_eq. cbn in Hauth.
      destruct Hauth as [H | [H | H]]; auto.
    + exists why. f_equal. exact (cancel_deal_reject_unchanged _ _ _ _ Hrun).
Qed.

Lemma client_cancelDeal_group_witness :
  run RealEstateEscrow.getEscrowApprovalProgram
    (submit (cancelDeal buyer app_id custodian offered) 1 300 custodian seller)
    offered
  = Approve (<["status" := Cancelled]> offered).
Proof.
  refine (proj1 (client_cancelDeal_group offered buyer seller buyer custodian
                   seller app_id 1000 deadline 300 _ _ _ _ _ _ _) _).
  - discriminate.
  - vm_compute. reflexivity.
  - vm_compute. reflexivity.
  - vm_compute. reflexivity.
  - vm_compute. reflexivity.
  - discriminate.
  - vm_compute. reflexivity.
  - left. reflexivity.
Defined.

End ClientGroups.

(** ** Beyond the claims: the marketplace page *)

Section Page.
Import Marketplace.

Lemma status_eqb_eq (a b : Status) : status_eqb a b = true <-> a = b.
Proof. destruct a, b; simpl; split; congruence. Qed.

Lemma id_determines (ps : list Property) (p q : Property) :
  List.NoDup (map id ps) -> In p ps -> In q ps -> id p = id q -> p = q.
Proof.
  induction ps as [| r ps IH]; simpl; intros Hnd Hp Hq Hid; [contradiction |].
  inversion Hnd as [| ? ? Hnotin Hnd']; subst.
  destruct Hp as [-> | Hp], Hq as [-> | Hq].
  - reflexivity.
  - exfalso. apply Hnotin. rewrite Hid. apply in_map. exact Hq.
  - exfalso. apply Hnotin. rewrite <- Hid. apply in_map. exact Hp.
  - apply IH; assumption.
Qed.

Lemma restatus_ids (s : Status) (i : Z) (ps : list Property) :
  map id (map (fun p => if id p =? i then with_status s p else p) ps)
  = map id ps.
Proof.
  induction ps as [| p ps IH]; simpl; [reflexivity |].
  rewrite IH. destruct (id p =? i); reflexivity.
Qed.

Lemma restatus_keeps (s : Status) (i : Z) (ps : list Property)
    (q : Property) :
  In q ps -> id q <> i ->
  In q (map (fun p => if id p =? i then with_status s p else p) ps).
Proof.
  intros Hq Hne. apply in_map_iff. exists q. split; [| exact Hq].
  apply Z.eqb_neq in Hne. rewrite Hne. reflexivity.
Qed.

Lemma filter_ids_NoDup (i : Z) (ps : list Property) :
  List.NoDup (map id ps) ->
  List.NoDup (map id (List.filter (fun p => negb (id p =? i)) ps)).
Proof.
  induction ps as [| p ps IH]; simpl; intros Hnd; [constructor |].
  inversion Hnd as [| ? ? Hnotin Hnd']; subst.
  destruct (negb (id p =? i)); simpl; [| auto].
  constructor; [| auto].
  intros Hin. apply Hnotin. apply in_map_iff in Hin.
  destruct Hin as (q & Hq & Hin). apply filter_In in Hin.
  rewrite <- Hq. apply in_map. tauto.
Qed.

(** The conditions under which each button is rendered and enabled. *)
Lemma button_conditions (walletConnected : bool) (p : Property)
    (user : string) (isLoading : bool) :
  (confirm_enabled walletConnected p user isLoading = true <->
   walletConnected = true /\ seller p = user /\ status p = pending
   /\ isLoading = false) /\
  (seller_cancel_enabled walletConnected p user isLoading = true <->
   walletConnected = true /\ seller p = user /\ status p = listed
   /\ isLoading = false) /\
  (make_offer_enabled walletConnected p user isLoading = true <->
   walletConnected = true /\ seller p <> user /\ status p = listed
   /\ isLoading = false) /\
  (buyer_cancel_enabled walletConnected p user isLoading = true <->
   walletConnected = true /\ seller p <> user /\ status p = pending
   /\ isLoading = false).
Proof.
  unfold confirm_enabled, seller_cancel_enabled, make_offer_enabled,
    buyer_cancel_enabled.
  destruct walletConnected;
    destruct (String.eqb_spec (seller p) user) as [Heq | Hne];
    destruct (status p), isLoading; simpl;
    repeat split; intros; try discriminate; try tauto;
    try (destruct H as (? & ? & ? & ?); congruence).
Qed.

(** X25. With distinct ids, whatever enabled button whichever account
    clicks, a sold property stays on the page as it is, and the ids stay
    distinct. *)
Theorem page_sold_is_final (walletConnected : bool) (user : string)
    (ps ps' : list Property) :
  List.NoDup (map id ps) ->
  click walletConnected user ps ps' ->
  List.NoDup (map id ps') /\
  forall q, In q ps -> status q = sold -> In q ps'.
Proof.
  intros Hnd Hclick.
  assert (Hother : forall p q,
    In p ps -> In q ps -> status p <> sold -> status q = sold ->
    id q <> id p).
  { intros p q Hp Hq Hps Hqs Hid.
    apply Hps. rewrite <- (id_determines ps q p Hnd Hq Hp Hid). exact Hqs. }
  destruct Hclick as [p Hp Hen Hid | p Hp Hen | p ps' Hp Hen Hcancel].
  - apply button_conditions in Hen. destruct Hen as (_ & _ & Hst & _).
    unfold handleMakeOffer. rewrite restatus_ids. split; [exact Hnd |].
    intros q Hq Hqs. apply restatus_keeps; [exact Hq |].
    apply (Hother p q Hp Hq); [congruence | exact Hqs].
  - apply button_conditions in Hen. destruct Hen as (_ & _ & Hst & _).
    unfold handleConfirmTransfer. rewrite restatus_ids. split; [exact Hnd |].
    intros q Hq Hqs. apply restatus_keeps; [exact Hq |].
    apply (Hother p q Hp Hq); [congruence | exact Hqs].
  - assert (Hst : status p <> sold).
    { destruct Hen as [Hen | Hen]; apply button_conditions in Hen;
        destruct Hen as (_ & _ & Hst & _); congruence. }
    unfold handleCancelDeal in Hcancel.
    destruct (List.find (fun p0 => id p0 =? id p) ps) as [property |];
      [| discriminate].
    destruct (String.eqb (seller property) user); injection Hcancel as <-.
    + split; [apply filter_ids_NoDup; exact Hnd |].
      intros q Hq Hqs. apply filter_In. split; [exact Hq |].
      apply negb_true_iff. apply Z.eqb_neq.
      apply (Hother p q Hp Hq Hst Hqs).
    + rewrite restatus_ids. split; [exact Hnd |].
      intros q Hq Hqs. apply restatus_keeps; [exact Hq |].
      apply (Hother p q Hp Hq Hst Hqs).
Qed.

Lemma page_sold_is_final_witness :
  List.NoDup
    (map id (handleConfirmTransfer (mockProperties "" "") 2)) /\
  forall q, In q (mockProperties "" "") -> status q = sold ->
    In q (handleConfirmTransfer (mockProperties "" "") 2).
Proof.
  refine (page_sold_is_final true "SELLER987654321ZYXWVUTSRQPONMLK"
            (mockProperties "" "") _ _ _).
  - repeat constructor; simpl; intuition discriminate.
  - refine (click_confirm _ _ _
              {| id := 2; title := "Suburban Family Home";
                 location := "Austin, TX"; price := 425000000000;
                 sqft := 2400; bedrooms := 4; bathrooms := 3;
                 description :=
                   "Spacious family home in quiet neighborhood with large backyard and great schools nearby.";
                 images := []; seller := "SELLER987654321ZYXWVUTSRQPONMLK";
                 documentHash := "hash_def456";
                 contractAddress := Some 12346; status := pending;
                 listingDate := "" |} _ _).
    + right. left. reflexivity.
    + reflexivity.
Defined.

(** X26. The handlers keep the list of ids as it is when they change a
    status, and [handleCancelDeal] reports 'Property not found' exactly
    when no property has the id it is given. *)
Theorem page_handlers_ids (ps : list Property) (user : string) (i : Z) :
  map id (handleMakeOffer ps i) = map id ps /\
  map id (handleConfirmTransfer ps i) = map id ps /\
  (handleCancelDeal ps user i = None <-> forall p, In p ps -> id p <> i).
Proof.
  split; [apply restatus_ids |]. split; [apply restatus_ids |].
  unfold handleCancelDeal.
  destruct (List.find (fun p => id p =? i) ps) as [property |] eqn:Hfind.
  - apply find_some in Hfind. destruct Hfind as (Hin & Heq).
    apply Z.eqb_eq in Heq. split.
    + destruct (String.eqb (seller property) user); discriminate.
    + intros Hall. exfalso. exact (Hall property Hin Heq).
  - split; [| reflexivity].
    intros _ p Hp Hid.
    pose proof (find_none _ _ Hfind p Hp) as Hn. simpl in Hn.
    apply Z.eqb_neq in Hn. contradiction.
Qed.

Lemma substring_length (s : string) :
  forall n m,
    String.length (String.substring n m s) = Nat.min m (String.length s - n).
Proof.
  induction s as [| c s IH]; intros [| n] [| m]; simpl; try reflexivity.
  - rewrite IH. rewrite Nat.sub_0_r. reflexivity.
  - apply IH.
  - apply IH.
Qed.

Lemma substring_all (s : string) :
  forall m, (String.length s <= m)%nat -> String.substring 0 m s = s.
Proof.
  induction s as [| c s IH]; intros [| m] Hm; simpl in *; try reflexivity.
  - lia.
  - rewrite IH by lia. reflexivity.
Qed.

(** X27. The abbreviation of an address, [slice(0, 8)], three dots,
    [slice(-4)], is 15 characters long for every address of 8 characters or
    more, whereas a string of at most 4 characters is shown twice around
    the dots. *)
Theorem formatAddress_shape (address : string) :
  ((8 <= String.length address)%nat ->
   String.length (formatAddress address) = 15%nat) /\
  ((String.length address <= 4)%nat ->
   formatAddress address = (address +:+ "..." +:+ address)%string).
Proof.
  unfold formatAddress, slice_from_end. split; intros Hlen.
  - assert (Happ : forall a b : string,
      String.length (a +:+ b) = (String.length a + String.length b)%nat).
    { intros a b. pose proof (strlen_app a b) as H.
      unfold AVM.strlen in H. lia. }
    rewrite !Happ, !substring_length. simpl String.length. lia.
  - replace (String.length address - 4)%nat with 0%nat by lia.
    rewrite !substring_all by lia. reflexivity.
Qed.

End Page.

(** ** Beyond the claims: what an approved payout tells *)

Section Payout.
Import AVM Escrow Scenario Client Ledger.

(** X28. Whenever [confirm_transfer] is approved, the caller is the
    recorded seller, the status was 0, the block time is before the
    deadline, and the group has two transactions of which the first is a
    payment from the custodian to that seller; the only write is the
    status. *)
Theorem escrow_confirm_transfer_needs_payout (e : Env)
    (g g' : gmap string Value) :
  calls e "confirm_transfer" ->
  run RealEstateEscrow.getEscrowApprovalProgram e g = Approve g' ->
  exists s d a,
    g !! "seller" = Some (Bytes s) /\ caller_is e s /\
    glob g "status" = Active /\
    glob g "deadline" = UInt d /\ latest_timestamp e < d /\
    length (group e) = 2%nat /\
    pays e (current_application_address e) s a /\
    g' = <["status" := Completed]> g.
Proof.
  intros Hc Hrun. rewrite (escrow_dispatch_confirm_transfer e g Hc) in Hrun.
  apply confirm_transfer_approve_iff in Hrun.
  destruct Hrun as (t & s & d & p & Ht & Hs & Hts & Hst & Hd & Hlt & Hn & Hp
                    & Hty & Hps & Hpr & Hg).
  exists s, d, (tx_amount p). repeat split; auto.
  - apply glob_bytes. exact Hs.
  - exists t. auto.
  - exists p. repeat split; auto.
Qed.

Lemma escrow_confirm_transfer_needs_payout_witness :
  exists s d a,
    offered !! "seller" = Some (Bytes s) /\
    caller_is (confirm_call offered 300) s /\
    glob offered "status" = Active /\
    glob offered "deadline" = UInt d /\ 300 < d /\
    length (group (confirm_call offered 300)) = 2%nat /\
    pays (confirm_call offered 300) custodian s a /\
    <["status" := Completed]> offered = <["status" := Completed]> offered.
Proof.
  refine (escrow_confirm_transfer_needs_payout (confirm_call offered 300)
            offered (<["status" := Completed]> offered) _ _).
  - eexists. repeat split; try reflexivity. discriminate.
  - vm_compute. reflexivity.
Defined.

End Payout.
